(** * ISBN parsing, validation, conversion and printing

    A shallow embedding of [isbn.go] (package [isbn]) and the proofs of
    the properties its specification states.

    Conventions of the embedding:
    - a Go [string] is an immutable sequence of bytes: Rocq's [string]
      (a sequence of 8-bit [ascii]);
    - a Go [byte] (uint8) and a Go [rune] (int32) are integers in [Z];
      conversions that can wrap are written with their modulus;
    - a fixed-size array ([[3]byte], [[9]byte]) is a [list Z]; the length
      is an invariant of the type and appears as a hypothesis where a
      statement quantifies over arbitrary records;
    - a Go panic is an explicit outcome ([Panic], or [None] for the
      renderer), so that "never panics" is a theorem and not an axiom of
      the model. *)

From Stdlib Require Import ZArith Zbitwise Lia Bool List String Ascii.
From stdpp Require Import base list.
Import ListNotations.

Local Open Scope Z_scope.

(** ** Bytes and strings *)

Abbreviation byte := Z (only parsing).
Abbreviation rune := Z (only parsing).

Definition byte_of_ascii (c : ascii) : byte := Z.of_N (N_of_ascii c).
Definition ascii_of_byte (b : byte) : ascii := ascii_of_N (Z.to_N b).

(** [[]byte(s)] *)
Definition bytes (s : string) : list byte :=
  map byte_of_ascii (list_ascii_of_string s).

(** [string(b)] for a byte slice [b] *)
Definition string_of_bytes (b : list byte) : string :=
  string_of_list_ascii (map ascii_of_byte b).

(** [len(s)] *)
Definition len (s : string) : nat := String.length s.

(** [s[n:]]; Go panics when [n > len(s)]. *)
Definition slice_from (n : nat) (s : string) : option string :=
  if (n <=? len s)%nat then Some (substring n (len s - n) s) else None.

(** [s[0:n]]; Go panics when [n > len(s)]. *)
Definition slice_to (n : nat) (s : string) : option string :=
  if (n <=? len s)%nat then Some (substring 0 n s) else None.

(** [s[i]]; Go panics when [i >= len(s)]. *)
Definition index (s : string) (i : nat) : option byte :=
  byte_of_ascii <$> String.get i s.

(** [strings.HasPrefix(s, p)] *)
Definition HasPrefix (s p : string) : bool := String.prefix p s.

(** ** UTF-8, as Go's [range] over a string and [strings.Map] see it *)

Module utf8.

Definition RuneError : rune := 0xFFFD.
Definition MaxRune : rune := 0x10FFFF.

(** What the first byte of an encoding announces: one ASCII byte, an
    invalid lead byte, or a sequence of [size] bytes whose second byte
    must lie in [[lo, hi]] (Go's [first] and [acceptRanges] tables). *)
Inductive lead : Type :=
| Ascii
| Invalid
| Lead (size : nat) (lo hi : byte).

Definition first (b : byte) : lead :=
  if b <? 0x80 then Ascii
  else if b <? 0xC2 then Invalid
  else if b <? 0xE0 then Lead 2 0x80 0xBF
  else if b =? 0xE0 then Lead 3 0xA0 0xBF
  else if b <? 0xED then Lead 3 0x80 0xBF
  else if b =? 0xED then Lead 3 0x80 0x9F
  else if b <? 0xF0 then Lead 3 0x80 0xBF
  else if b =? 0xF0 then Lead 4 0x90 0xBF
  else if b <? 0xF4 then Lead 4 0x80 0xBF
  else if b =? 0xF4 then Lead 4 0x80 0x8F
  else Invalid.

(** Continuation byte out of [0x80 .. 0xBF]. *)
Definition not_cont (b : byte) : bool := (b <? 0x80) || (0xBF <? b).

(** [utf8.DecodeRune(p)]: the first rune of [p] and its width in bytes.
    An invalid or truncated encoding yields [(RuneError, 1)]. *)
Definition DecodeRune (p : list byte) : rune * nat :=
  match p with
  | [] => (RuneError, 0%nat)
  | s0 :: _ =>
    match first s0 with
    | Ascii => (s0, 1%nat)
    | Invalid => (RuneError, 1%nat)
    | Lead sz lo hi =>
      if (length p <? sz)%nat then (RuneError, 1%nat) else
      let s1 := nth 1 p 0 in
      if (s1 <? lo) || (hi <? s1) then (RuneError, 1%nat) else
      if (sz <=? 2)%nat then
        (Z.lor (Z.shiftl (Z.land s0 0x1F) 6) (Z.land s1 0x3F), 2%nat)
      else
      let s2 := nth 2 p 0 in
      if not_cont s2 then (RuneError, 1%nat) else
      if (sz <=? 3)%nat then
        (Z.lor (Z.lor (Z.shiftl (Z.land s0 0x0F) 12)
                      (Z.shiftl (Z.land s1 0x3F) 6))
               (Z.land s2 0x3F), 3%nat)
      else
      let s3 := nth 3 p 0 in
      if not_cont s3 then (RuneError, 1%nat) else
        (Z.lor (Z.lor (Z.lor (Z.shiftl (Z.land s0 0x07) 18)
                             (Z.shiftl (Z.land s1 0x3F) 12))
                      (Z.shiftl (Z.land s2 0x3F) 6))
               (Z.land s3 0x3F), 4%nat)
    end
  end.

(** [utf8.AppendRune(nil, r)]: the encoding of [r]; a rune out of range
    or a surrogate is encoded as [RuneError]. *)
Definition encode3 (r : rune) : list byte :=
  [ Z.lor 0xE0 (Z.shiftr r 12);
    Z.lor 0x80 (Z.land (Z.shiftr r 6) 0x3F);
    Z.lor 0x80 (Z.land r 0x3F) ].

Definition EncodeRune (r : rune) : list byte :=
  if (0 <=? r) && (r <=? 0x7F) then [ r ]
  else if (0 <=? r) && (r <=? 0x7FF) then
    [ Z.lor 0xC0 (Z.shiftr r 6); Z.lor 0x80 (Z.land r 0x3F) ]
  else if (r <? 0) || (MaxRune <? r) || ((0xD800 <=? r) && (r <=? 0xDFFF))
    then encode3 RuneError
  else if r <=? 0xFFFF then encode3 r
  else
    [ Z.lor 0xF0 (Z.shiftr r 18);
      Z.lor 0x80 (Z.land (Z.shiftr r 12) 0x3F);
      Z.lor 0x80 (Z.land (Z.shiftr r 6) 0x3F);
      Z.lor 0x80 (Z.land r 0x3F) ].

(** [for _, c := range s]: the runes of [s] in order.  Each step
    consumes at least one byte, so [length p] steps always suffice. *)
Fixpoint range_runes (fuel : nat) (p : list byte) : list rune :=
  match fuel, p with
  | S k, _ :: _ =>
    let '(r, w) := DecodeRune p in r :: range_runes k (drop w p)
  | _, _ => []
  end.

Definition runes (s : string) : list rune :=
  range_runes (length (bytes s)) (bytes s).

End utf8.

(** [strings.Map(mapping, s)]: every rune of [s] is replaced by its image;
    a negative image drops the rune.  (Go's implementation copies an
    unchanged prefix of [s] verbatim; [runeToISBNDigit] never returns its
    argument, so that path is not taken here.) *)
Definition emit (mapping : rune -> rune) (c : rune) : list byte :=
  let r := mapping c in
  if r <? 0 then [] else utf8.EncodeRune r.

Definition strings_Map (mapping : rune -> rune) (s : string) : string :=
  string_of_bytes (flat_map (emit mapping) (utf8.runes s)).

(** ** The ISBN value and the parser *)

(** [type ISBN struct] *)
Record ISBN : Type := mkISBN {
  is13 : bool;
  prefix : list byte;   (* [3]byte *)
  digits : list byte;   (* [9]byte *)
  checksum : byte
}.

Definition allowedISBN13Prefixes : list (list byte) := [[9; 7; 8]; [9; 7; 9]].

Definition urnPrefix : string := "urn:isbn:".

(** The rune's ISBN digit value, [-1] for the characters that are
    stripped. *)
Definition runeToISBNDigit (r : rune) : rune :=
  if (48 <=? r) && (r <=? 57) then r - 48
  else if (r =? 120) || (r =? 88) then 10
  else -1.

(** [None] is the panic "Invalid byte in ISBN data". *)
Definition isbnDigitToByte (r : byte) : option byte :=
  if (0 <=? r) && (r <=? 9) then Some ((r + 48) mod 256)
  else if r =? 10 then Some 88
  else None.

(** The errors [Parse] returns, named as the specification names them;
    the Go values are [fmt.Errorf] messages:
    - [FormatError]: "Invalid ISBN format"
    - [DigitCountError]: "Invalid ISBN digit count"
    - [PrefixError raw]: "Unexpected ISBN-13 prefix: " followed by [raw]
    - [InvalidCharacterPositionError]: "Unexpected character in ISBN (X
      can only be the final digit of an ISBN-10)"
    - [ChecksumError]: "ISBN checksum was incorrect" *)
Inductive ParseError : Type :=
| FormatError
| DigitCountError
| PrefixError (raw : string)
| InvalidCharacterPositionError
| ChecksumError.

(** The outcome of a call that may return an error or panic. *)
Inductive result (A : Type) : Type :=
| Ok (a : A)
| Err (e : ParseError)
| Panic.
Arguments Ok {A} a.
Arguments Err {A} e.
Arguments Panic {A}.

Definition bind {A B} (r : result A) (k : A -> result B) : result B :=
  match r with
  | Ok a => k a
  | Err e => Err e
  | Panic => Panic
  end.

(** An indexing or slicing expression: out of range is a panic. *)
Definition checked {A} (o : option A) : result A :=
  match o with
  | Some a => Ok a
  | None => Panic
  end.

#[global] Instance result_bind : MBind result := fun _ _ k r => bind r k.

(** [bytes.Equal(a, b)] *)
Definition bytes_Equal (a b : list byte) : bool := bool_decide (a = b).

Definition isAllowedPrefix (p : list byte) : bool :=
  existsb (fun a => bytes_Equal p a) allowedISBN13Prefixes.

(** [for i, d := range l { s = body(s, i, d) }], the index starting at
    [i]. *)
Fixpoint range_fold {St} (body : St -> nat -> byte -> St)
    (i : nat) (l : list byte) (s : St) : St :=
  match l with
  | [] => s
  | d :: l' => range_fold body (S i) l' (body s i d)
  end.

(** The checksum digit value of the nine digits, ISBN-10 algorithm.
    [sum] is a Go [int]: nine bytes weighted by at most 10 cannot
    overflow it.  [%] is Go's truncated remainder; [byte(_)] wraps. *)
Definition check10 (digits : list byte) : byte :=
  let sum := range_fold (fun sum i d => sum + d * (10 - Z.of_nat i))
                        0%nat digits 0 in
  let m := Z.rem sum 11 in
  if m =? 0 then 0 else (11 - m) mod 256.

(** The checksum digit value of the nine digits, ISBN-13 algorithm. *)
Definition check13 (prefix digits : list byte) : byte :=
  let sum := 1 * nth 0 prefix 0 + 3 * nth 1 prefix 0 + 1 * nth 2 prefix 0 in
  let sum := range_fold
               (fun sum i d =>
                  let weight := if (Z.rem (Z.of_nat i) 2 =? 0) then 3 else 1 in
                  sum + d * weight)
               0%nat digits sum in
  let m := Z.rem sum 10 in
  if m =? 0 then 0 else (10 - m) mod 256.

(** [isValid]: the checksum matches what it should be. *)
Definition isValid (n : ISBN) : bool :=
  if is13 n then check13 (prefix n) (digits n) =? checksum n
  else check10 (digits n) =? checksum n.

(** The body of the loop of [Parse] over [m[offset:]]: an X outside the
    last place of an ISBN-10 is an error; place 9 is the checksum, the
    others are written into the [[9]byte] array (an index past it would
    panic). *)
Definition parse_step (r : result ISBN) (i : nat) (c : byte) : result ISBN :=
  parsed ← r;
  if (c =? 10) && (is13 parsed || negb (i =? 9)%nat) then
    Err InvalidCharacterPositionError
  else if (i =? 9)%nat then
    Ok (mkISBN (is13 parsed) (prefix parsed) (digits parsed) c)
  else if (i <? length (digits parsed))%nat then
    Ok (mkISBN (is13 parsed) (prefix parsed) (<[i:=c]> (digits parsed))
               (checksum parsed))
  else Panic.

(** The text [Parse] works on: the input without its optional
    [urn:isbn:] prefix. *)
Definition trimURN (s : string) : result string :=
  if HasPrefix s urnPrefix then checked (slice_from (len urnPrefix) s)
  else Ok s.

(** [Parse] turns a string into an ISBN, or returns an error. *)
Definition Parse (s : string) : result ISBN :=
  s ← trimURN s;
  if (13 + 4 <? len s)%nat then Err FormatError else
  let m := strings_Map runeToISBNDigit s in
  let is13 := (len m =? 13)%nat in
  if negb (len m =? 10)%nat && negb is13 then Err DigitCountError else
  let parsed := mkISBN is13 [0; 0; 0] (replicate 9 0) 0 in
  '(parsed, offset) ←
    (if is13 then
       m0 ← checked (index m 0);
       m1 ← checked (index m 1);
       m2 ← checked (index m 2);
       let parsed := mkISBN is13 [m0; m1; m2] (digits parsed)
                            (checksum parsed) in
       if negb (isAllowedPrefix (prefix parsed)) then
         raw ← checked (slice_to 3 s); Err (PrefixError raw)
       else Ok (parsed, 3%nat)
     else Ok (parsed, 0%nat));
  rest ← checked (slice_from offset m);
  parsed ← range_fold parse_step 0%nat (bytes rest) (Ok parsed);
  if negb (isValid parsed) then Err ChecksumError else Ok parsed.

(** [Validate]: whether the string is an ISBN, nothing else. *)
Definition Validate (s : string) : result bool :=
  match Parse s with
  | Ok _ => Ok true
  | Err _ => Ok false
  | Panic => Panic
  end.

(** ** Conversions *)

(** [copy(dst, src)] on slices: the first [min (len dst) (len src)]
    elements of [dst] are overwritten. *)
Definition copy (dst src : list byte) : list byte :=
  take (length dst) src ++ drop (length src) dst.

(** [To10]: the ISBN-10 version; the prefix is kept in case of a
    conversion back. *)
Definition To10 (n : ISBN) : ISBN :=
  if negb (is13 n) then n
  else mkISBN false (prefix n) (digits n) (check10 (digits n)).

(** [To13]: the ISBN-13 version. *)
Definition To13 (n : ISBN) : ISBN :=
  if is13 n then n
  else
    let prefix :=
      if negb (isAllowedPrefix (prefix n))
      then copy [0; 0; 0] (nth 0 allowedISBN13Prefixes [])
      else prefix n in
    mkISBN true prefix (digits n) (check13 prefix (digits n)).

Definition Is13 (n : ISBN) : bool := is13 n.
Definition Is10 (n : ISBN) : bool := negb (is13 n).

(** ** Printing *)

(** [for i, d := range src { dst[i] = isbnDigitToByte(d) }]; [None] when
    the renderer panics or the index leaves [dst]. *)
Definition render_step (dst : option (list byte)) (i : nat) (d : byte)
    : option (list byte) :=
  b ← dst;
  c ← isbnDigitToByte d;
  if (i <? length b)%nat then Some (<[i:=c]> b) else None.

(** [String]: ISBN-10 as just the digits, ISBN-13 with a single hyphen
    after the prefix. *)
Definition String_ (n : ISBN) : option string :=
  base ← range_fold render_step 0%nat (digits n) (Some (replicate 10 0));
  c ← isbnDigitToByte (checksum n);
  let base := <[9%nat:=c]> base in
  if is13 n then
    pre ← range_fold render_step 0%nat (prefix n) (Some (replicate 3 0));
    Some (string_of_bytes pre ++ "-" ++ string_of_bytes base)%string
  else Some (string_of_bytes base).

(** [EquivalientTo]: the digits match, whatever the form or the
    checksum; [false] when either pointer is nil. *)
Fixpoint digits_match (i : nat) (l other : list byte) : bool :=
  match l with
  | [] => true
  | d :: l' =>
    if negb (d =? nth i other 0) then false else digits_match (S i) l' other
  end.

Definition EquivalientTo (n other : option ISBN) : bool :=
  match n, other with
  | Some n, Some other => digits_match 0 (digits n) (digits other)
  | _, _ => false
  end.

(** [ToURN]: the string urn for this ISBN. *)
Definition ToURN (n : ISBN) : option string :=
  s ← String_ n; Some (urnPrefix ++ s)%string.

(** [Canonical]: the urn form of the ISBN-13 version. *)
Definition Canonical (n : ISBN) : option string := ToURN (To13 n).

(** ** Notions the statements use *)

(** The digit values that survive in [s], byte by byte: the value of each
    byte that is an ISBN digit character, the other bytes left out. *)
Definition digitValue (b : byte) : list byte :=
  let r := runeToISBNDigit b in if r <? 0 then [] else [r].

Definition digitValues (s : string) : list byte :=
  flat_map digitValue (bytes s).

(** What [Parse] makes of the surviving digit values once their count
    and prefix are settled: [body] holds the nine digits and the
    checksum. *)
Definition assemble (is13 : bool) (pre body : list byte) : result ISBN :=
  if existsb (Z.eqb 10) (take 9 body) || ((nth 9 body 0 =? 10) && is13)
  then Err InvalidCharacterPositionError
  else
    let n := mkISBN is13 pre (take 9 body) (nth 9 body 0) in
    if isValid n then Ok n else Err ChecksumError.

(** The surviving digit-value sequence of a text, character by
    character: the images of its runes under [runeToISBNDigit], the
    dropped ones left out. *)
Definition survivors (s : string) : list rune :=
  filter (fun r => 0 <= r) (map runeToISBNDigit (utf8.runes s)).

(** The values the package hands out: results of [Parse], and of the two
    conversions applied to such values. *)
Inductive produced : ISBN -> Prop :=
| produced_Parse s n : Parse s = Ok n -> produced n
| produced_To10 n : produced n -> produced (To10 n)
| produced_To13 n : produced n -> produced (To13 n).

(** The invariants of the data model. *)
Record WellFormed (n : ISBN) : Prop := {
  wf_digits_length : length (digits n) = 9%nat;
  wf_digits : Forall (fun d => 0 <= d <= 9) (digits n);
  wf_checksum : 0 <= checksum n <= 10;
  wf_valid :
    checksum n = if is13 n then check13 (prefix n) (digits n)
                 else check10 (digits n);
  wf_X : checksum n = 10 -> is13 n = false;
  wf_prefix_length : length (prefix n) = 3%nat;
  wf_prefix : is13 n = true -> isAllowedPrefix (prefix n) = true
}.

(** The checksum algorithms in the words of the specification: a
    weighted sum of the digits by index, its remainder, and the
    complement of the remainder. *)
Definition weight10 (i : nat) : Z := 10 - Z.of_nat i.

Definition weight13 (i : nat) : Z := if Nat.even i then 3 else 1.

Definition weighted_sum (weight : nat -> Z) (ds : list Z) : Z :=
  foldr Z.add 0 (imap (fun i d => d * weight i) ds).

Definition spec_check10 (ds : list Z) : Z :=
  let remainder := weighted_sum weight10 ds mod 11 in
  if decide (remainder = 0) then 0 else 11 - remainder.

Definition spec_check13 (p ds : list Z) : Z :=
  let sum := nth 0 p 0 * 1 + nth 1 p 0 * 3 + nth 2 p 0 * 1
             + weighted_sum weight13 ds in
  let remainder := sum mod 10 in
  if decide (remainder = 0) then 0 else 10 - remainder.

(** The byte [String] prints for a digit value in [0,10]. *)
Definition digit_char (d : byte) : byte := if d =? 10 then 88 else d + 48.

(** An ISBN digit character is one of '0'-'9', 'x' and 'X', each a
    single byte; [digitsOnly s] is [s] without its other bytes. *)
Definition isDigitByte (b : byte) : bool := 0 <=? runeToISBNDigit b.

Definition digitsOnly (s : string) : string :=
  string_of_bytes (List.filter isDigitByte (bytes s)).

(** The text of the single character [r]. *)
Definition char (r : rune) : string := string_of_bytes (utf8.EncodeRune r).

(** Two outcomes of [Parse] that agree up to the raw text a
    [PrefixError] echoes. *)
Definition same_error (e1 e2 : ParseError) : Prop :=
  match e1, e2 with
  | PrefixError _, PrefixError _ => True
  | _, _ => e1 = e2
  end.

Definition same_outcome (r1 r2 : result ISBN) : Prop :=
  match r1, r2 with
  | Ok a, Ok b => a = b
  | Err e1, Err e2 => same_error e1 e2
  | Panic, Panic => True
  | _, _ => False
  end.

(** The text [t] holds the digit values of [n] and nothing [Parse]
    objects to before it checks the checksum: at most 17 bytes, the
    prefix (for an ISBN-13), the nine digits and the checksum as its
    surviving digit values, an allow-listed prefix or none, and no X but
    as the checksum of an ISBN-10. *)
Definition reads_as (t : string) (n : ISBN) : Prop :=
  (len t <= 17)%nat /\
  survivors t = (if is13 n then prefix n else []) ++ digits n ++ [checksum n] /\
  length (digits n) = 9%nat /\
  (if is13 n then isAllowedPrefix (prefix n) = true else prefix n = [0; 0; 0]) /\
  Forall (fun d => d <> 10) (digits n) /\
  (checksum n = 10 -> is13 n = false).

(** * Properties *)

(** ** Strings as byte sequences *)

Section StringBytes.

Lemma byte_of_ascii_range c : 0 <= byte_of_ascii c < 256.
Proof.
  unfold byte_of_ascii. pose proof (N_ascii_bounded c). lia.
Qed.

Lemma ascii_of_byte_of_ascii c : ascii_of_byte (byte_of_ascii c) = c.
Proof.
  unfold ascii_of_byte, byte_of_ascii.
  rewrite N2Z.id. apply ascii_N_embedding.
Qed.

Lemma byte_of_ascii_of_byte b :
  0 <= b < 256 -> byte_of_ascii (ascii_of_byte b) = b.
Proof.
  intros Hb. unfold ascii_of_byte, byte_of_ascii.
  rewrite N_ascii_embedding by lia. lia.
Qed.

Lemma length_bytes s : length (bytes s) = len s.
Proof.
  unfold bytes, len. rewrite length_map.
  induction s as [|c s IH]; simpl; congruence.
Qed.

Lemma len_string_of_bytes l : len (string_of_bytes l) = length l.
Proof.
  unfold len, string_of_bytes.
  induction l as [|b l IH]; simpl; congruence.
Qed.

Lemma bytes_string_of_bytes l :
  Forall (fun b => 0 <= b < 256) l -> bytes (string_of_bytes l) = l.
Proof.
  unfold bytes, string_of_bytes. rewrite list_ascii_of_string_of_list_ascii.
  induction 1 as [|b l Hb _ IH]; simpl; [reflexivity|].
  rewrite byte_of_ascii_of_byte by assumption. congruence.
Qed.

Lemma string_of_bytes_bytes s : string_of_bytes (bytes s) = s.
Proof.
  unfold bytes, string_of_bytes.
  induction s as [|c s IH]; simpl; [reflexivity|].
  rewrite ascii_of_byte_of_ascii. congruence.
Qed.

Lemma bytes_app s t : bytes (s ++ t) = bytes s ++ bytes t.
Proof.
  unfold bytes. induction s as [|c s IH]; simpl; congruence.
Qed.

Lemma len_app s t : len (s ++ t) = (len s + len t)%nat.
Proof.
  rewrite <- !length_bytes, bytes_app. apply length_app.
Qed.

Lemma bytes_substring_from s : forall n,
  bytes (substring n (len s - n) s) = drop n (bytes s).
Proof.
  unfold bytes, len.
  induction s as [|c s IH]; intros [|n]; simpl; try reflexivity.
  - f_equal. specialize (IH 0%nat). simpl in IH.
    rewrite Nat.sub_0_r in IH. rewrite IH. reflexivity.
  - apply IH.
Qed.

Lemma index_bytes s : forall i, index s i = bytes s !! i.
Proof.
  unfold index, bytes.
  induction s as [|c s IH]; intros [|i]; simpl; try reflexivity.
  apply IH.
Qed.

Lemma Forall_bytes_range s : Forall (fun b => 0 <= b < 256) (bytes s).
Proof.
  unfold bytes. induction s as [|c s IH]; simpl; constructor;
    [apply byte_of_ascii_range | assumption].
Qed.

End StringBytes.

Section Utf8.
Import utf8.

Lemma lor_ge_l a b : 0 <= b -> a <= Z.lor a b.
Proof.
  intros Hb. pose proof (Z.sub_lor_l_same_l b a) as H.
  assert (0 <= Z.land b (Z.lnot a)) by (apply Z.land_nonneg; lia).
  lia.
Qed.

Lemma lor_ge_r a b : 0 <= a -> b <= Z.lor a b.
Proof. intros Ha. rewrite Z.lor_comm. apply lor_ge_l, Ha. Qed.

Lemma lor_bounds a b :
  0 <= a -> 0 <= b -> 0 <= Z.lor a b /\ a <= Z.lor a b /\ b <= Z.lor a b.
Proof.
  intros Ha Hb. split; [apply Z.lor_nonneg; lia|].
  split; [apply lor_ge_l | apply lor_ge_r]; assumption.
Qed.

Lemma field_value x k n :
  0 <= k -> 0 <= n -> Z.shiftl (Z.land x (Z.ones k)) n = x mod 2 ^ k * 2 ^ n.
Proof.
  intros Hk Hn. rewrite Z.shiftl_mul_pow2, Z.land_ones by assumption.
  reflexivity.
Qed.

Lemma DecodeRune_ascii s0 rest :
  s0 < 0x80 -> DecodeRune (s0 :: rest) = (s0, 1%nat).
Proof.
  intros H. unfold DecodeRune, first.
  destruct (Z.ltb_spec s0 0x80); [reflexivity | lia].
Qed.

Ltac split_tests :=
  repeat match goal with
  | |- context [Z.ltb ?a ?b] => destruct (Z.ltb_spec a b)
  | |- context [Z.eqb ?a ?b] => destruct (Z.eqb_spec a b)
  | |- context [Nat.ltb ?a ?b] => destruct (Nat.ltb_spec a b)
  | |- context [Nat.leb ?a ?b] => destruct (Nat.leb_spec a b)
  end; cbn [orb andb negb].

Lemma first_cases s0 :
  0x80 <= s0 ->
  first s0 = Invalid \/
  (exists lo hi, first s0 = Lead 2 lo hi /\ 0x80 <= lo /\ hi <= 0xBF /\
                 0xC2 <= s0 < 0xE0) \/
  (exists lo hi, first s0 = Lead 3 lo hi /\ 0x80 <= lo /\ hi <= 0xBF /\
                 0xE0 <= s0 < 0xF0 /\ (s0 = 0xE0 -> 0xA0 <= lo)) \/
  (exists lo hi, first s0 = Lead 4 lo hi /\ 0x80 <= lo /\ hi <= 0xBF /\
                 0xF0 <= s0 < 0xF5 /\ (s0 = 0xF0 -> 0x90 <= lo)).
Proof.
  intros H0. unfold first. split_tests; try lia; eauto 10 with lia.
Qed.

Lemma DecodeRune_multi s0 rest :
  0x80 <= s0 ->
  exists r w, DecodeRune (s0 :: rest) = (r, w) /\
    0x80 <= r /\ (1 <= w <= length (s0 :: rest))%nat /\
    Forall (fun b => 0x80 <= b) (take w (s0 :: rest)).
Proof.
  intros H0. unfold DecodeRune.
  destruct (first_cases s0 H0)
    as [-> | [(lo & hi & -> & Hlo & Hhi & Hs0)
           | [(lo & hi & -> & Hlo & Hhi & Hs0 & Hs0')
             | (lo & hi & -> & Hlo & Hhi & Hs0 & Hs0')]]].
  all: destruct rest as [|s1 [|s2 [|s3 rest]]];
    unfold not_cont, RuneError; cbn [nth length]; split_tests.
  all: (eexists _, _; split; [reflexivity|]).
  all: (split; [| split; [cbn [length]; lia | cbn [take]; repeat constructor; lia]]).
  all: try lia.
  all: change 31 with (Z.ones 5); change 63 with (Z.ones 6);
       change 15 with (Z.ones 4); change 7 with (Z.ones 3).
  all: rewrite ?field_value, ?Z.land_ones by lia.
  all: repeat match goal with
       | |- context [Z.lor ?a ?b] =>
         let H := fresh in
         pose proof (lor_bounds a b) as H; generalize dependent (Z.lor a b); intros
       | H : context [Z.lor ?a ?b] |- _ =>
         let H := fresh in
         pose proof (lor_bounds a b) as H; generalize dependent (Z.lor a b); intros
       end.
  all: Z.div_mod_to_equations; lia.
Qed.
End Utf8.

Section MapDigits.
Import utf8.

Lemma runeToISBNDigit_range r :
  runeToISBNDigit r = -1 \/ 0 <= runeToISBNDigit r <= 10.
Proof.
  unfold runeToISBNDigit.
  destruct (Z.leb_spec 48 r), (Z.leb_spec r 57); cbn [andb]; try lia;
    destruct (Z.eqb_spec r 120), (Z.eqb_spec r 88); cbn [orb]; lia.
Qed.

Lemma runeToISBNDigit_high r : 0x80 <= r -> runeToISBNDigit r = -1.
Proof.
  intros H. unfold runeToISBNDigit.
  destruct (Z.leb_spec 48 r), (Z.leb_spec r 57); cbn [andb]; try lia;
    destruct (Z.eqb_spec r 120), (Z.eqb_spec r 88); cbn [orb]; lia.
Qed.

Lemma emit_high r : 0x80 <= r -> emit runeToISBNDigit r = [].
Proof.
  intros H. unfold emit. rewrite runeToISBNDigit_high by assumption.
  reflexivity.
Qed.

(** A digit value is encoded as the single byte of that value. *)
Lemma emit_digitValue b : emit runeToISBNDigit b = digitValue b.
Proof.
  unfold emit, digitValue, EncodeRune.
  destruct (runeToISBNDigit_range b) as [-> | Hr]; [reflexivity|].
  destruct (Z.ltb_spec (runeToISBNDigit b) 0); [lia|].
  destruct (Z.leb_spec 0 (runeToISBNDigit b)); [|lia].
  destruct (Z.leb_spec (runeToISBNDigit b) 0x7F); [reflexivity | lia].
Qed.

Lemma flat_map_emit_high l :
  Forall (fun b => 0x80 <= b) l -> flat_map (emit runeToISBNDigit) l = [].
Proof.
  induction 1 as [|b l Hb _ IH]; simpl; [reflexivity|].
  rewrite emit_high by assumption. exact IH.
Qed.

(** Mapping the runes of a byte sequence keeps exactly the bytes that
    are ISBN digit characters: no byte of a multi-byte or invalid
    encoding is one. *)
Lemma range_runes_emit fuel : forall p,
  (length p <= fuel)%nat ->
  flat_map (emit runeToISBNDigit) (range_runes fuel p)
  = flat_map (emit runeToISBNDigit) p.
Proof.
  induction fuel as [|k IH]; intros [|s0 rest] Hlen; simpl in Hlen;
    try reflexivity; [lia|].
  cbn [range_runes].
  destruct (Z.lt_ge_cases s0 0x80) as [Hlow | Hhigh].
  - rewrite DecodeRune_ascii by assumption.
    change (drop 1 (s0 :: rest)) with rest. cbn [flat_map].
    rewrite IH by lia. reflexivity.
  - destruct (DecodeRune_multi s0 rest Hhigh) as (r & w & -> & Hr & Hw & Hall).
    assert (flat_map (emit runeToISBNDigit) (s0 :: rest)
            = flat_map (emit runeToISBNDigit) (drop w (s0 :: rest))) as ->.
    { rewrite <- (take_drop w (s0 :: rest)) at 1.
      rewrite flat_map_app, flat_map_emit_high by assumption. reflexivity. }
    cbn [flat_map]. rewrite emit_high by assumption. cbn [app].
    apply IH. rewrite length_drop. cbn [length] in *. lia.
Qed.

Lemma digitValues_runes s :
  flat_map (emit runeToISBNDigit) (runes s) = digitValues s.
Proof.
  unfold runes, digitValues.
  rewrite range_runes_emit by lia.
  induction (bytes s) as [|b l IH]; simpl; [reflexivity|].
  rewrite emit_digitValue, IH. reflexivity.
Qed.

Lemma strings_Map_digitValues s :
  strings_Map runeToISBNDigit s = string_of_bytes (digitValues s).
Proof. unfold strings_Map. rewrite digitValues_runes. reflexivity. Qed.

Lemma digitValues_range s : Forall (fun b => 0 <= b <= 10) (digitValues s).
Proof.
  unfold digitValues. induction (bytes s) as [|b l IH]; simpl; [constructor|].
  apply Forall_app. split; [|assumption].
  unfold digitValue. destruct (runeToISBNDigit_range b) as [-> | Hr];
    simpl; [constructor|].
  destruct (Z.ltb_spec (runeToISBNDigit b) 0); repeat constructor; lia.
Qed.

Lemma bytes_strings_Map s :
  bytes (strings_Map runeToISBNDigit s) = digitValues s.
Proof.
  rewrite strings_Map_digitValues. apply bytes_string_of_bytes.
  eapply Forall_impl; [apply digitValues_range|]. simpl. intros; lia.
Qed.

Lemma len_strings_Map s :
  len (strings_Map runeToISBNDigit s) = length (digitValues s).
Proof. rewrite <- length_bytes, bytes_strings_Map. reflexivity. Qed.

End MapDigits.

(** ** What [Parse] computes *)

Section ParseSteps.

Lemma prefix_app p : forall s,
  String.prefix p s = true -> exists t, s = (p ++ t)%string.
Proof.
  induction p as [|c p IH]; intros s H.
  - exists s. reflexivity.
  - destruct s as [|c' s]; simpl in H; [discriminate|].
    destruct (ascii_dec c c') as [<- | Hne]; [|discriminate].
    destruct (IH s H) as [t ->]. exists t. reflexivity.
Qed.

Lemma substring_app_r p : forall t,
  substring (len p) (len (p ++ t) - len p) (p ++ t) = t.
Proof.
  unfold len. induction p as [|c p IH]; intros t; simpl.
  - rewrite Nat.sub_0_r. induction t as [|c t IHt]; simpl; congruence.
  - apply IH.
Qed.

(** Stripping the urn prefix never panics, and removes exactly that
    prefix when it is there. *)
Lemma trimURN_cases s :
  (HasPrefix s urnPrefix = false /\ trimURN s = Ok s) \/
  (exists t, s = (urnPrefix ++ t)%string /\ trimURN s = Ok t).
Proof.
  unfold trimURN. destruct (HasPrefix s urnPrefix) eqn:Hp; [right | left; auto].
  destruct (prefix_app _ _ Hp) as [t ->]. exists t. split; [reflexivity|].
  unfold slice_from. rewrite len_app.
  destruct (Nat.leb_spec (len urnPrefix) (len urnPrefix + len t)); [|lia].
  rewrite <- len_app, substring_app_r. reflexivity.
Qed.

Lemma trimURN_total s : exists t, trimURN s = Ok t.
Proof.
  destruct (trimURN_cases s) as [[_ H] | (t & _ & H)]; eauto.
Qed.

Lemma range_fold_parse_step_Err e l : forall i,
  range_fold parse_step i l (Err e) = Err e.
Proof. induction l as [|c l IH]; intros i; simpl; [reflexivity | apply IH]. Qed.

Lemma parse_step_X is13 pre ds cs i :
  (is13 || negb (i =? 9)%nat) = true ->
  parse_step (Ok (mkISBN is13 pre ds cs)) i 10
  = Err InvalidCharacterPositionError.
Proof. intros H. unfold parse_step. simpl. rewrite H. reflexivity. Qed.

Lemma length_digitValues_le s : (length (digitValues s) <= len s)%nat.
Proof.
  rewrite <- length_bytes. unfold digitValues.
  induction (bytes s) as [|b l IH]; simpl; [lia|].
  rewrite length_app. unfold digitValue at 1.
  destruct (runeToISBNDigit b <? 0); simpl; lia.
Qed.

Lemma parse_step_Err e i c : parse_step (Err e) i c = Err e.
Proof. reflexivity. Qed.

Lemma parse_step_digit is13 pre ds cs i c :
  c <> 10 -> (i < 9)%nat -> length ds = 9%nat ->
  parse_step (Ok (mkISBN is13 pre ds cs)) i c
  = Ok (mkISBN is13 pre (<[i:=c]> ds) cs).
Proof.
  intros Hc Hi Hlen. unfold parse_step. simpl.
  destruct (Z.eqb_spec c 10); [contradiction|]. cbn [andb].
  destruct (Nat.eqb_spec i 9); [lia|].
  rewrite Hlen. destruct (Nat.ltb_spec i 9); [reflexivity | lia].
Qed.

Lemma parse_step_checksum is13 pre ds cs c :
  parse_step (Ok (mkISBN is13 pre ds cs)) 9 c
  = if (c =? 10) && is13 then Err InvalidCharacterPositionError
    else Ok (mkISBN is13 pre ds c).
Proof.
  unfold parse_step. simpl. rewrite orb_false_r. reflexivity.
Qed.

(** The loop of [Parse] over the ten values after the prefix. *)
Lemma parse_loop is13 pre body :
  length body = 10%nat ->
  (parsed ← range_fold parse_step 0%nat body
              (Ok (mkISBN is13 pre (replicate 9 0) 0));
   if negb (isValid parsed) then Err ChecksumError else Ok parsed)
  = assemble is13 pre body.
Proof.
  intros Hlen.
  do 10 (destruct body as [|? body]; [discriminate|]).
  destruct body; [clear Hlen | discriminate].
  unfold assemble. cbn [take nth existsb range_fold replicate].
  repeat match goal with
  | |- context [parse_step (Ok (mkISBN ?a ?b ?ds ?cs)) ?i ?c] =>
    lazymatch i with
    | 9%nat => rewrite parse_step_checksum
    | _ =>
      destruct (Z.eq_dec c 10) as [-> | Hne];
      [ rewrite parse_step_X by (cbn; apply orb_true_r);
        rewrite ?parse_step_Err; cbn [Z.eqb Pos.eqb orb]; reflexivity
      | rewrite (parse_step_digit a b ds cs i c Hne) by (cbn; lia);
        rewrite (proj2 (Z.eqb_neq 10 c)) by congruence;
        cbn [orb]; clear Hne ]
    end
  end.
  destruct ((z8 =? 10) && is13); [reflexivity|].
  match goal with
  | |- context [mkISBN _ _ (<[?i:=?c]> ?l) _] =>
    let l' := eval cbn in (<[i:=c]> l) in
    change (<[i:=c]> l) with l'
  end.
  cbn [mbind result_bind bind].
  destruct (isValid _); reflexivity.
Qed.

Lemma slice_from_ok n s :
  (n <= len s)%nat -> slice_from n s = Some (substring n (len s - n) s).
Proof.
  intros H. unfold slice_from.
  destruct (Nat.leb_spec n (len s)); [reflexivity | lia].
Qed.

(** [Parse] on the text left after the urn prefix: the length guard,
    the count of the surviving digit values, the prefix check, then
    the ten values after the prefix. *)
Lemma Parse_text s t :
  trimURN s = Ok t ->
  Parse s =
    if (17 <? len t)%nat then Err FormatError
    else
      let m := digitValues t in
      if (length m =? 13)%nat then
        if isAllowedPrefix (take 3 m) then assemble true (take 3 m) (drop 3 m)
        else Err (PrefixError (substring 0 3 t))
      else if (length m =? 10)%nat then assemble false [0; 0; 0] m
      else Err DigitCountError.
Proof.
  intros Ht. unfold Parse. rewrite Ht. cbn [mbind result_bind bind].
  change (13 + 4)%nat with 17%nat.
  destruct (17 <? len t)%nat; [reflexivity|].
  cbv zeta. rewrite len_strings_Map.
  pose proof (length_digitValues_le t) as Hle.
  pose proof (bytes_strings_Map t) as Hb.
  pose proof (len_strings_Map t) as Hl.
  set (m := strings_Map runeToISBNDigit t) in *.
  set (dv := digitValues t) in *.
  destruct (Nat.eqb_spec (length dv) 13) as [H13 | H13].
  - destruct (Nat.eqb_spec (length dv) 10); [lia|]. cbn [negb andb].
    rewrite !index_bytes, Hb.
    destruct dv as [|m0 [|m1 [|m2 body]]]; try discriminate.
    change (take 3 (m0 :: m1 :: m2 :: body)) with [m0; m1; m2].
    change (drop 3 (m0 :: m1 :: m2 :: body)) with body.
    cbn [lookup list_lookup checked mbind result_bind bind prefix].
    destruct (isAllowedPrefix [m0; m1; m2]); cbn [negb].
    + cbn [mbind result_bind bind].
      rewrite slice_from_ok by (rewrite Hl; cbn [length]; lia).
      cbn [checked mbind result_bind bind].
      rewrite bytes_substring_from, Hb.
      change (drop 3 (m0 :: m1 :: m2 :: body)) with body.
      cbn [digits checksum].
      apply parse_loop. cbn [length] in H13. lia.
    + unfold slice_to. destruct (Nat.leb_spec 3 (len t)); [|cbn [length] in Hle; lia].
      reflexivity.
  - cbn [negb andb]. rewrite andb_true_r.
    destruct (Nat.eqb_spec (length dv) 10) as [H10 | H10]; [|reflexivity].
    cbn [negb mbind result_bind bind].
    rewrite slice_from_ok by lia.
    cbn [checked mbind result_bind bind].
    rewrite bytes_substring_from, Hb. change (drop 0 dv) with dv.
    apply parse_loop. exact H10.
Qed.

End ParseSteps.

(** ** The checksum algorithms *)

Section Checksums.

(** The loop of both checksums adds [d * w i] for the digit [d] at
    index [i]. *)
Lemma range_fold_weighted (w : nat -> Z) l : forall i acc,
  range_fold (fun sum i d => sum + d * w i) i l acc
  = acc + weighted_sum (fun j => w (i + j)%nat) l.
Proof.
  unfold weighted_sum.
  induction l as [|d l IH]; intros i acc; cbn [range_fold imap foldr].
  - lia.
  - rewrite IH, Nat.add_0_r.
    rewrite (imap_ext (fun j d => d * w (S i + j)%nat)
                      ((fun j d => d * w (i + j)%nat) ∘ S) l)
      by (intros j x _; simpl; f_equal; f_equal; lia).
    lia.
Qed.

Lemma weighted_sum_nonneg (w : nat -> Z) l :
  (forall i, (i < length l)%nat -> 0 <= w i) ->
  Forall (fun d => 0 <= d) l ->
  0 <= weighted_sum w l.
Proof.
  unfold weighted_sum. intros Hw Hl. revert w Hw.
  induction Hl as [|d l Hd _ IH]; intros w Hw; cbn [imap foldr]; [lia|].
  assert (0 <= w 0%nat) by (apply Hw; simpl; lia).
  assert (0 <= foldr Z.add 0 (imap ((fun i d => d * w i) ∘ S) l)).
  { apply (IH (fun i => w (S i))). intros i Hi. apply Hw. simpl. lia. }
  nia.
Qed.

Lemma weight13_code i :
  (if Z.rem (Z.of_nat i) 2 =? 0 then 3 else 1) = weight13 i.
Proof.
  unfold weight13. rewrite Z.rem_mod_nonneg by lia.
  destruct (Nat.Even_or_Odd i) as [[k ->] | [k ->]].
  - rewrite Nat.even_even.
    destruct (Z.eqb_spec (Z.of_nat (2 * k) mod 2) 0) as [_ | Hne];
      [reflexivity|]. exfalso. apply Hne. clear Hne.
    Z.div_mod_to_equations. lia.
  - rewrite Nat.even_odd.
    destruct (Z.eqb_spec (Z.of_nat (2 * k + 1) mod 2) 0) as [He | _];
      [|reflexivity]. exfalso. revert He.
    Z.div_mod_to_equations. lia.
Qed.

Lemma complement_small k m :
  0 < k <= 11 -> 0 <= m < k ->
  (if m =? 0 then 0 else (k - m) mod 256)
  = if decide (m = 0) then 0 else k - m.
Proof.
  intros Hk Hm. destruct (Z.eqb_spec m 0), (decide (m = 0));
    try contradiction; [reflexivity|].
  apply Z.mod_small. lia.
Qed.

Lemma check10_spec_check10 ds :
  (length ds <= 10)%nat -> Forall (fun d => 0 <= d) ds ->
  check10 ds = spec_check10 ds.
Proof.
  intros Hlen Hds. unfold check10, spec_check10.
  rewrite (range_fold_weighted (fun i => 10 - Z.of_nat i)). cbn [Nat.add Z.add].
  change (fun j => 10 - Z.of_nat j) with weight10.
  assert (0 <= weighted_sum weight10 ds) as Hsum.
  { apply weighted_sum_nonneg; [|assumption].
    intros i Hi. unfold weight10. lia. }
  rewrite Z.rem_mod_nonneg by lia.
  apply (complement_small 11); [lia|]. apply Z.mod_pos_bound. lia.
Qed.

Lemma spec_check10_range ds : 0 <= spec_check10 ds <= 10.
Proof.
  unfold spec_check10.
  pose proof (Z.mod_pos_bound (weighted_sum weight10 ds) 11 ltac:(lia)).
  cbv zeta. destruct (decide _); lia.
Qed.

Lemma weighted_sum_ext (w w' : nat -> Z) l :
  (forall i, w i = w' i) -> weighted_sum w l = weighted_sum w' l.
Proof.
  intros H. unfold weighted_sum. f_equal. apply imap_ext.
  intros i d _. simpl. rewrite H. reflexivity.
Qed.

Lemma nth_nonneg (l : list Z) i : Forall (fun d => 0 <= d) l -> 0 <= nth i l 0.
Proof.
  intros H. revert i. induction H as [|d l Hd _ IH]; intros [|i]; simpl;
    try lia. apply IH.
Qed.

Lemma check13_spec_check13 p ds :
  Forall (fun d => 0 <= d) p -> Forall (fun d => 0 <= d) ds ->
  check13 p ds = spec_check13 p ds.
Proof.
  intros Hp Hds. unfold check13, spec_check13. cbv zeta.
  rewrite (range_fold_weighted
             (fun i => if Z.rem (Z.of_nat i) 2 =? 0 then 3 else 1)).
  cbn [Nat.add].
  rewrite (weighted_sum_ext _ weight13) by apply weight13_code.
  pose proof (nth_nonneg p 0 Hp). pose proof (nth_nonneg p 1 Hp).
  pose proof (nth_nonneg p 2 Hp).
  assert (0 <= weighted_sum weight13 ds) as Hsum.
  { apply weighted_sum_nonneg; [|assumption].
    intros i _. unfold weight13. destruct (Nat.even i); lia. }
  rewrite Z.rem_mod_nonneg by lia.
  replace (1 * nth 0 p 0 + 3 * nth 1 p 0 + 1 * nth 2 p 0
           + weighted_sum weight13 ds)
    with (nth 0 p 0 * 1 + nth 1 p 0 * 3 + nth 2 p 0 * 1
          + weighted_sum weight13 ds) by lia.
  apply (complement_small 10); [lia|]. apply Z.mod_pos_bound. lia.
Qed.

Lemma spec_check13_range p ds : 0 <= spec_check13 p ds <= 9.
Proof.
  unfold spec_check13. cbv zeta.
  match goal with |- context [?a mod 10] =>
    pose proof (Z.mod_pos_bound a 10 ltac:(lia)) end.
  destruct (decide _); lia.
Qed.

(** C3. The ISBN-10 checksum of nine body digits in [0,9] is the value
    the specification describes: the sum of digit [i] times [10 - i],
    its remainder modulo 11, and [0] for remainder [0], [11 - remainder]
    otherwise; it lies in [0,10]. *)
Theorem check10_correct ds :
  length ds = 9%nat -> Forall (fun d => 0 <= d <= 9) ds ->
  check10 ds = spec_check10 ds /\ 0 <= check10 ds <= 10.
Proof.
  intros Hlen Hds.
  assert (check10 ds = spec_check10 ds) as ->.
  { apply check10_spec_check10; [lia|].
    eapply Forall_impl; [exact Hds|]. simpl. intros; lia. }
  split; [reflexivity | apply spec_check10_range].
Qed.

Lemma check10_correct_witness :
  check10 [0; 8; 0; 4; 4; 2; 9; 5; 7] = spec_check10 [0; 8; 0; 4; 4; 2; 9; 5; 7]
  /\ 0 <= check10 [0; 8; 0; 4; 4; 2; 9; 5; 7] <= 10.
Proof.
  apply check10_correct; [reflexivity|]. repeat constructor; lia.
Defined.

(** C2. The ISBN-13 checksum of a three-byte prefix and nine body
    digits in [0,9] is the value the specification describes: the
    prefix weighted 1, 3, 1, then the body digits weighted 3 at even
    and 1 at odd indices, the remainder modulo 10, and [0] for
    remainder [0], [10 - remainder] otherwise; it lies in [0,9], never
    10. *)
Theorem check13_correct p ds :
  length p = 3%nat -> Forall (fun d => 0 <= d <= 255) p ->
  length ds = 9%nat -> Forall (fun d => 0 <= d <= 9) ds ->
  check13 p ds = spec_check13 p ds /\ 0 <= check13 p ds <= 9.
Proof.
  intros _ Hp _ Hds.
  assert (check13 p ds = spec_check13 p ds) as ->.
  { apply check13_spec_check13;
      (eapply Forall_impl; [eassumption|]; simpl; intros; lia). }
  split; [reflexivity | apply spec_check13_range].
Qed.

Lemma check13_correct_witness :
  check13 [9; 7; 8] [0; 8; 0; 4; 4; 2; 9; 5; 7]
  = spec_check13 [9; 7; 8] [0; 8; 0; 4; 4; 2; 9; 5; 7]
  /\ 0 <= check13 [9; 7; 8] [0; 8; 0; 4; 4; 2; 9; 5; 7] <= 9.
Proof.
  apply check13_correct; try reflexivity; repeat constructor; lia.
Defined.

End Checksums.

Example check10_X : check10 [0; 8; 0; 4; 4; 2; 9; 5; 7] = 10.
Proof. reflexivity. Qed.

Example check13_3 : check13 [9; 7; 8] [0; 8; 0; 4; 4; 2; 9; 5; 7] = 3.
Proof. reflexivity. Qed.

(** ** The values the package produces *)

Section Produced.

(** The surviving digit values, counted character by character or
    byte by byte, are the same sequence. *)
Lemma survivors_digitValues s : survivors s = digitValues s.
Proof.
  rewrite <- digitValues_runes. unfold survivors.
  induction (utf8.runes s) as [|r l IH]; [reflexivity|].
  cbn [map flat_map]. rewrite filter_cons, IH, emit_digitValue.
  unfold digitValue.
  destruct (Z.ltb_spec (runeToISBNDigit r) 0), (decide (0 <= runeToISBNDigit r));
    try lia; reflexivity.
Qed.

Lemma isAllowedPrefix_cases p :
  isAllowedPrefix p = true <-> p = [9; 7; 8] \/ p = [9; 7; 9].
Proof.
  unfold isAllowedPrefix, allowedISBN13Prefixes, bytes_Equal.
  cbn [existsb]. rewrite orb_false_r, orb_true_iff, !bool_decide_eq_true.
  reflexivity.
Qed.

Lemma existsb_X_false l :
  existsb (Z.eqb 10) l = false ->
  Forall (fun b => 0 <= b <= 10) l -> Forall (fun d => 0 <= d <= 9) l.
Proof.
  intros Hx Hl. induction Hl as [|b l Hb _ IH]; [constructor|].
  cbn [existsb] in Hx. apply orb_false_iff in Hx as [Hb10 Hx].
  apply Z.eqb_neq in Hb10. constructor; [lia | apply IH, Hx].
Qed.

(** A value assembled from ten digit values satisfies the invariant,
    whatever the prefix. *)
Lemma assemble_Ok is13 pre body n :
  assemble is13 pre body = Ok n ->
  length body = 10%nat -> Forall (fun b => 0 <= b <= 10) body ->
  n = mkISBN is13 pre (take 9 body) (nth 9 body 0) /\
  length (digits n) = 9%nat /\
  Forall (fun d => 0 <= d <= 9) (digits n) /\
  0 <= checksum n <= 10 /\
  isValid n = true /\
  (checksum n = 10 -> is13 = false).
Proof.
  unfold assemble. intros H Hlen Hb.
  destruct (existsb (Z.eqb 10) (take 9 body)) eqn:Hx; [discriminate|].
  cbn [orb] in H.
  destruct (Z.eqb_spec (nth 9 body 0) 10) as [Hc | Hc]; cbn [andb] in H.
  all: destruct is13; try discriminate.
  all: destruct (isValid _) eqn:Hv; [|discriminate].
  all: injection H as <-; cbn [digits checksum].
  all: split; [reflexivity|].
  all: split; [rewrite length_take; lia|].
  all: split; [apply existsb_X_false; [exact Hx | apply Forall_take, Hb]|].
  all: assert (0 <= nth 9 body 0 <= 10)
         by (apply (proj1 (Forall_nth _ 0 body) Hb); lia).
  all: split; [lia|]. all: split; [exact Hv|].
  all: intros; (reflexivity || lia).
Qed.

(** What a successful [Parse] returns, in terms of the surviving digit
    values of the trimmed text. *)
Lemma Parse_Ok_inv s n :
  Parse s = Ok n ->
  exists t, trimURN s = Ok t /\ (len t <= 17)%nat /\
    ((length (digitValues t) = 13%nat /\
      isAllowedPrefix (take 3 (digitValues t)) = true /\
      assemble true (take 3 (digitValues t)) (drop 3 (digitValues t)) = Ok n)
     \/
     (length (digitValues t) = 10%nat /\
      assemble false [0; 0; 0] (digitValues t) = Ok n)).
Proof.
  intros H. destruct (trimURN_total s) as [t Ht]. exists t.
  split; [exact Ht|]. rewrite (Parse_text s t Ht) in H.
  destruct (Nat.ltb_spec 17 (len t)); [discriminate|]. split; [lia|].
  cbv zeta in H.
  destruct (Nat.eqb_spec (length (digitValues t)) 13) as [H13 | H13].
  - left. destruct (isAllowedPrefix _); [auto | discriminate].
  - right. destruct (Nat.eqb_spec (length (digitValues t)) 10);
      [auto | discriminate].
Qed.

Lemma isValid_checksum n :
  isValid n = true ->
  checksum n = if is13 n then check13 (prefix n) (digits n)
               else check10 (digits n).
Proof.
  unfold isValid. destruct (is13 n); intros H; apply Z.eqb_eq in H; auto.
Qed.

Lemma Parse_WellFormed s n : Parse s = Ok n -> WellFormed n.
Proof.
  intros H. destruct (Parse_Ok_inv s n H) as (t & _ & _ & Hcases).
  pose proof (digitValues_range t) as Hr.
  destruct Hcases as [(H13 & Hp & Ha) | (H10 & Ha)].
  - apply assemble_Ok in Ha as (-> & Hl & Hd & Hc & Hv & Hx);
      [| rewrite length_drop; lia | apply Forall_drop, Hr].
    apply isValid_checksum in Hv. cbn [is13 prefix digits checksum] in *.
    split; cbn [is13 prefix digits checksum]; auto.
    + rewrite length_take. lia.
  - apply assemble_Ok in Ha as (-> & Hl & Hd & Hc & Hv & Hx);
      [| assumption | exact Hr].
    apply isValid_checksum in Hv. cbn [is13 prefix digits checksum] in *.
    split; cbn [is13 prefix digits checksum]; auto.
Qed.

Lemma check10_range ds :
  length ds = 9%nat -> Forall (fun d => 0 <= d <= 9) ds ->
  0 <= check10 ds <= 10.
Proof.
  intros Hl Hd. rewrite check10_spec_check10; [apply spec_check10_range | lia |].
  eapply Forall_impl; [exact Hd|]. simpl. intros; lia.
Qed.

Lemma check13_range p ds :
  isAllowedPrefix p = true -> Forall (fun d => 0 <= d <= 9) ds ->
  0 <= check13 p ds <= 9.
Proof.
  intros Hp Hd. rewrite check13_spec_check13; [apply spec_check13_range | |].
  - apply isAllowedPrefix_cases in Hp as [-> | ->]; repeat constructor; lia.
  - eapply Forall_impl; [exact Hd|]. simpl. intros; lia.
Qed.

Lemma To10_WellFormed n : WellFormed n -> WellFormed (To10 n).
Proof.
  intros Hwf. unfold To10.
  destruct (is13 n) eqn:E; cbn [negb]; [|exact Hwf].
  destruct Hwf as [Hl Hd Hc Hv Hx Hpl Hp].
  split; cbn [is13 prefix digits checksum]; auto; try discriminate.
  apply check10_range; assumption.
Qed.

(** The prefix [To13] settles on is allow-listed. *)
Lemma To13_prefix_allowed p :
  isAllowedPrefix
    (if negb (isAllowedPrefix p)
     then copy [0; 0; 0] (nth 0 allowedISBN13Prefixes [])
     else p) = true.
Proof. destruct (isAllowedPrefix p) eqn:E; [exact E | reflexivity]. Qed.

Lemma To13_WellFormed n : WellFormed n -> WellFormed (To13 n).
Proof.
  intros Hwf. unfold To13.
  destruct (is13 n) eqn:E; [exact Hwf|].
  destruct Hwf as [Hl Hd Hc Hv Hx Hpl Hp].
  - pose proof (To13_prefix_allowed (prefix n)) as Hq.
    pose proof (check13_range _ (digits n) Hq Hd) as Hr.
    split; cbn [is13 prefix digits checksum]; auto; try lia.
    apply isAllowedPrefix_cases in Hq as [-> | ->]; reflexivity.
Qed.

Lemma produced_WellFormed n : produced n -> WellFormed n.
Proof.
  induction 1 as [s n H | n _ IH | n _ IH].
  - exact (Parse_WellFormed s n H).
  - exact (To10_WellFormed n IH).
  - exact (To13_WellFormed n IH).
Qed.

(** C7. Every value produced by [Parse], [To10] or [To13] has nine
    body digits in [0,9], a checksum in [0,10] that is [check13] of its
    prefix and digits when it is an ISBN-13 and [check10] of its digits
    when it is an ISBN-10, and a checksum 10 only as an ISBN-10. *)
Theorem construction_invariant n :
  produced n ->
  length (digits n) = 9%nat /\
  Forall (fun d => 0 <= d <= 9) (digits n) /\
  0 <= checksum n <= 10 /\
  checksum n = (if is13 n then check13 (prefix n) (digits n)
                else check10 (digits n)) /\
  (checksum n = 10 -> is13 n = false).
Proof.
  intros H. destruct (produced_WellFormed n H). auto.
Qed.

Lemma construction_invariant_witness :
  let n := mkISBN false [0; 0; 0] [0; 8; 0; 4; 4; 2; 9; 5; 7] 10 in
  produced n /\
  (length (digits n) = 9%nat /\
   Forall (fun d => 0 <= d <= 9) (digits n) /\
   0 <= checksum n <= 10 /\
   checksum n = (if is13 n then check13 (prefix n) (digits n)
                 else check10 (digits n)) /\
   (checksum n = 10 -> is13 n = false)).
Proof.
  assert (produced (mkISBN false [0; 0; 0] [0; 8; 0; 4; 4; 2; 9; 5; 7] 10)) as H
    by (apply (produced_Parse "080442957X"); vm_compute; reflexivity).
  split; [exact H | exact (construction_invariant _ H)].
Defined.

End Produced.

(** ** Printing *)

Section Printing.

Lemma isbnDigitToByte_digit_char d :
  0 <= d <= 10 -> isbnDigitToByte d = Some (digit_char d).
Proof.
  intros Hd. unfold isbnDigitToByte, digit_char.
  destruct (Z.leb_spec 0 d); [|lia]. cbn [andb].
  destruct (Z.leb_spec d 9), (Z.eqb_spec d 10); try lia; [|reflexivity].
  rewrite Z.mod_small by lia. reflexivity.
Qed.

(** The rendering loop fills [dst] from index [i] on. *)
Lemma render_loop ds : forall i dst,
  Forall (fun d => 0 <= d <= 10) ds ->
  (i + length ds <= length dst)%nat ->
  range_fold render_step i ds (Some dst)
  = Some (take i dst ++ map digit_char ds ++ drop (i + length ds) dst).
Proof.
  induction ds as [|d ds IH]; intros i dst Hds Hlen; cbn [range_fold map length].
  - rewrite Nat.add_0_r, app_nil_l, take_drop. reflexivity.
  - apply Forall_cons in Hds as [Hd Hds]. cbn [length] in Hlen.
    unfold render_step at 2. cbn [mbind option_bind].
    rewrite isbnDigitToByte_digit_char by assumption. cbn [mbind option_bind].
    destruct (Nat.ltb_spec i (length dst)); [|lia].
    rewrite IH by (rewrite ?length_insert; (assumption || lia)).
    f_equal.
    rewrite (take_S_r _ _ (digit_char d))
      by (apply list_lookup_insert_eq; lia).
    rewrite take_insert_ge by lia.
    rewrite drop_insert_lt by lia.
    rewrite <- app_assoc. cbn [app].
    replace (S i + length ds)%nat with (i + S (length ds))%nat by lia.
    reflexivity.
Qed.

(** What [String] prints for a well-formed value. *)
Lemma String_WellFormed n :
  WellFormed n ->
  String_ n =
    Some (if is13 n
          then (string_of_bytes (map digit_char (prefix n)) ++ "-"
                ++ string_of_bytes (map digit_char (digits n ++ [checksum n])))%string
          else string_of_bytes (map digit_char (digits n ++ [checksum n]))).
Proof.
  intros [Hl Hd Hc Hv Hx Hpl Hp]. unfold String_.
  rewrite (render_loop (digits n) 0 (replicate 10 0));
    [| eapply Forall_impl; [exact Hd|]; simpl; intros; lia
     | rewrite Hl; cbn; lia ].
  cbn [mbind option_bind]. rewrite isbnDigitToByte_digit_char by assumption.
  cbn [mbind option_bind]. rewrite Hl.
  assert (<[9%nat:=digit_char (checksum n)]>
            (take 0 (replicate 10 0) ++ map digit_char (digits n)
             ++ drop (0 + 9) (replicate 10 0))
          = map digit_char (digits n ++ [checksum n])) as ->.
  { destruct (digits n) as [|? [|? [|? [|? [|? [|? [|? [|? [|? [|? ?]]]]]]]]]];
      try discriminate Hl. reflexivity. }
  destruct (is13 n) eqn:E; [|reflexivity].
  specialize (Hp eq_refl). apply isAllowedPrefix_cases in Hp as [-> | ->];
    reflexivity.
Qed.

Lemma String_total n : WellFormed n -> is_Some (String_ n).
Proof. intros H. rewrite (String_WellFormed n H). eauto. Qed.

Lemma ToURN_total n : WellFormed n -> is_Some (ToURN n).
Proof.
  intros H. unfold ToURN. destruct (String_total n H) as [s ->].
  cbn [mbind option_bind]. eauto.
Qed.

Lemma Canonical_total n : WellFormed n -> is_Some (Canonical n).
Proof. intros H. apply ToURN_total, To13_WellFormed, H. Qed.

(** C9. On every value produced by [Parse], [To10] or [To13], the
    operations [String], [ToURN] and [Canonical] return a string: the
    panic of [isbnDigitToByte] is not reached. *)
Theorem rendering_total n :
  produced n ->
  is_Some (String_ n) /\ is_Some (ToURN n) /\ is_Some (Canonical n).
Proof.
  intros H. apply produced_WellFormed in H.
  auto using String_total, ToURN_total, Canonical_total.
Qed.

Lemma rendering_total_witness :
  let n := mkISBN true [9; 7; 9] [5; 0; 0; 0; 0; 0; 0; 2; 3] 5 in
  produced n /\
  (is_Some (String_ n) /\ is_Some (ToURN n) /\ is_Some (Canonical n)).
Proof.
  assert (produced (mkISBN true [9; 7; 9] [5; 0; 0; 0; 0; 0; 0; 2; 3] 5)) as H
    by (apply (produced_Parse "979-5000000235"); vm_compute; reflexivity).
  split; [exact H | exact (rendering_total _ H)].
Defined.

End Printing.

(** ** Conversions *)

Section Conversions.

Lemma To13_is13 n : is13 (To13 n) = true.
Proof. unfold To13. destruct (is13 n) eqn:E; [exact E | reflexivity]. Qed.

Lemma To13_idempotent n : To13 (To13 n) = To13 n.
Proof. unfold To13 at 1. rewrite To13_is13. reflexivity. Qed.

Lemma To10_is10 n : is13 (To10 n) = false.
Proof. unfold To10. destruct (is13 n) eqn:E; [reflexivity | exact E]. Qed.

(** An ISBN-13 with an allow-listed prefix and the right checksum comes
    back from its ISBN-10 form unchanged. *)
Lemma To13_To10_13 n :
  is13 n = true -> isAllowedPrefix (prefix n) = true -> isValid n = true ->
  To13 (To10 n) = n.
Proof.
  intros E Hp Hv. apply isValid_checksum in Hv. rewrite E in Hv.
  unfold To10. rewrite E. cbn [negb]. unfold To13.
  cbn [is13 prefix digits checksum]. rewrite Hp. cbn [negb].
  destruct n as [i p d c]. cbn in *. subst. reflexivity.
Qed.

Lemma To13_To10 n : WellFormed n -> To13 (To10 n) = To13 n.
Proof.
  intros H. destruct (is13 n) eqn:E.
  - rewrite To13_To10_13; [| exact E | apply (wf_prefix n H E) |].
    + unfold To13. rewrite E. reflexivity.
    + unfold isValid. rewrite E. apply Z.eqb_eq.
      pose proof (wf_valid n H) as Hv. rewrite E in Hv. auto.
  - unfold To10. rewrite E. reflexivity.
Qed.

(** C6. For every value the package produces, [Canonical] returns the
    same string on the value, on its ISBN-10 form and on its ISBN-13
    form. *)
Theorem Canonical_stable v :
  produced v ->
  exists s, Canonical v = Some s /\
            Canonical (To10 v) = Some s /\
            Canonical (To13 v) = Some s.
Proof.
  intros H. apply produced_WellFormed in H.
  destruct (Canonical_total v H) as [s Hs]. exists s.
  unfold Canonical in *. rewrite To13_To10, To13_idempotent by assumption.
  auto.
Qed.

Lemma Canonical_stable_witness :
  let v := mkISBN false [0; 0; 0] [0; 8; 0; 4; 4; 2; 9; 5; 7] 10 in
  produced v /\
  exists s, Canonical v = Some s /\
            Canonical (To10 v) = Some s /\
            Canonical (To13 v) = Some s.
Proof.
  assert (produced (mkISBN false [0; 0; 0] [0; 8; 0; 4; 4; 2; 9; 5; 7] 10)) as H
    by (apply (produced_Parse "080442957X"); vm_compute; reflexivity).
  split; [exact H | exact (Canonical_stable _ H)].
Defined.

(** C1, as the code has it. Both round trips keep the digits of any
    value.  For a value with the right checksum, [To10 (To13 v)] has
    the checksum of [v] when [v] is an ISBN-10, and [To13 (To10 v)] is
    [v] itself (prefix and checksum included) when [v] is an ISBN-13
    with an allow-listed prefix.  The round trip that ends in the other
    form is the plain conversion to that form: [To10 (To13 v)] is
    [To10 v] for an ISBN-13, with checksum [check10], and
    [To13 (To10 v)] is [To13 v] for an ISBN-10. *)
Theorem round_trip v :
  isValid v = true ->
  digits (To10 (To13 v)) = digits v /\
  digits (To13 (To10 v)) = digits v /\
  (is13 v = false -> checksum (To10 (To13 v)) = checksum v) /\
  (is13 v = true -> isAllowedPrefix (prefix v) = true ->
   To13 (To10 v) = v) /\
  (is13 v = true ->
   To10 (To13 v) = To10 v /\ checksum (To10 v) = check10 (digits v)) /\
  (is13 v = false -> To13 (To10 v) = To13 v).
Proof.
  intros Hv. split; [|split; [|split; [|split; [|split]]]].
  - unfold To10, To13. destruct (is13 v) eqn:E; cbn; rewrite ?E; reflexivity.
  - unfold To10, To13. destruct (is13 v) eqn:E; cbn; rewrite ?E; reflexivity.
  - intros E. apply isValid_checksum in Hv. rewrite E in Hv.
    unfold To13. rewrite E. unfold To10. cbn. congruence.
  - intros E Hp. apply To13_To10_13; assumption.
  - intros E. split.
    + unfold To13. rewrite E. reflexivity.
    + unfold To10. rewrite E. reflexivity.
  - intros E. unfold To10. rewrite E. reflexivity.
Qed.

Lemma round_trip_witness :
  let v := mkISBN true [9; 7; 9] [5; 0; 0; 0; 0; 0; 0; 2; 3] 5 in
  isValid v = true /\
  (digits (To10 (To13 v)) = digits v /\
   digits (To13 (To10 v)) = digits v /\
   (is13 v = false -> checksum (To10 (To13 v)) = checksum v) /\
   (is13 v = true -> isAllowedPrefix (prefix v) = true ->
    To13 (To10 v) = v) /\
   (is13 v = true ->
    To10 (To13 v) = To10 v /\ checksum (To10 v) = check10 (digits v)) /\
   (is13 v = false -> To13 (To10 v) = To13 v)).
Proof.
  split; [reflexivity | apply round_trip; reflexivity].
Defined.

(** C1 as stated fails: the ISBN-10 parsed from "0836218256" is valid
    and carries the zero prefix, yet [To13 (To10 v)] has checksum 1,
    not 6; the ISBN-13 parsed from "9780836218251" is valid with an
    allow-listed prefix, yet [To10 (To13 v)] has checksum 6, not 1. *)
Lemma round_trip_checksum_counterexample :
  let v10 := mkISBN false [0; 0; 0] [0; 8; 3; 6; 2; 1; 8; 2; 5] 6 in
  let v13 := mkISBN true [9; 7; 8] [0; 8; 3; 6; 2; 1; 8; 2; 5] 1 in
  Parse "0836218256" = Ok v10 /\ isValid v10 = true /\
  checksum (To13 (To10 v10)) = 1 /\ checksum (To13 (To10 v10)) <> checksum v10 /\
  Parse "9780836218251" = Ok v13 /\ isValid v13 = true /\
  isAllowedPrefix (prefix v13) = true /\
  checksum (To10 (To13 v13)) = 6 /\ checksum (To10 (To13 v13)) <> checksum v13.
Proof.
  cbv zeta. repeat split; try (vm_compute; reflexivity);
    vm_compute; discriminate.
Qed.

End Conversions.

Example Canonical_X :
  Canonical (mkISBN false [0; 0; 0] [0; 8; 0; 4; 4; 2; 9; 5; 7] 10)
  = Some "urn:isbn:978-0804429573"%string.
Proof. reflexivity. Qed.

(** ** Rejections *)

Section Rejections.

Lemma assemble_not_DigitCountError is13 pre body :
  assemble is13 pre body <> Err DigitCountError.
Proof.
  unfold assemble. destruct (_ || _); [discriminate|].
  cbv zeta. destruct (isValid _); discriminate.
Qed.

(** C8. When the text left after the urn prefix has at most 17 bytes,
    [Parse] fails with [DigitCountError] exactly when the number of
    surviving digit values is neither 10 nor 13. *)
Theorem digit_count_rejection s t :
  trimURN s = Ok t -> (len t <= 17)%nat ->
  (Parse s = Err DigitCountError <->
   length (survivors t) <> 10%nat /\ length (survivors t) <> 13%nat).
Proof.
  intros Ht Hlen. rewrite (Parse_text s t Ht), survivors_digitValues.
  destruct (Nat.ltb_spec 17 (len t)); [lia|]. cbv zeta.
  destruct (Nat.eqb_spec (length (digitValues t)) 13) as [H13 | H13].
  - split; [|lia]. intros Hp. exfalso.
    destruct (isAllowedPrefix _); [|discriminate].
    exact (assemble_not_DigitCountError _ _ _ Hp).
  - destruct (Nat.eqb_spec (length (digitValues t)) 10) as [H10 | H10].
    + split; [|lia]. intros Hp. exfalso.
      exact (assemble_not_DigitCountError _ _ _ Hp).
    + split; auto.
Qed.

Lemma digit_count_rejection_witness :
  trimURN "08362208891" = Ok "08362208891"%string /\
  (len "08362208891" <= 17)%nat /\
  (Parse "08362208891" = Err DigitCountError <->
   length (survivors "08362208891") <> 10%nat /\
   length (survivors "08362208891") <> 13%nat).
Proof.
  split; [reflexivity|]. split; [vm_compute; lia|].
  apply digit_count_rejection; [reflexivity | vm_compute; lia].
Defined.

(** A 13-long sequence whose first three values are not an
    allow-listed prefix is rejected with a [PrefixError] that echoes the
    first three bytes of the text. *)
Lemma Parse_bad_prefix s t :
  trimURN s = Ok t -> (len t <= 17)%nat ->
  length (survivors t) = 13%nat ->
  isAllowedPrefix (take 3 (survivors t)) = false ->
  Parse s = Err (PrefixError (substring 0 3 t)).
Proof.
  rewrite survivors_digitValues. intros Ht Hlen H13 Hp.
  rewrite (Parse_text s t Ht).
  destruct (Nat.ltb_spec 17 (len t)); [lia|]. cbv zeta.
  rewrite H13, Hp. reflexivity.
Qed.

Lemma existsb_X_lookup (l : list Z) i :
  l !! i = Some 10 -> existsb (Z.eqb 10) l = true.
Proof.
  revert i. induction l as [|b l IH]; intros [|i] H; try discriminate;
    cbn [existsb lookup list_lookup] in *.
  - injection H as ->. reflexivity.
  - rewrite (IH i H). apply orb_true_r.
Qed.

Lemma assemble_X is13 pre body j :
  length body = 10%nat ->
  body !! j = Some 10 -> (is13 = true \/ j <> 9%nat) ->
  assemble is13 pre body = Err InvalidCharacterPositionError.
Proof.
  intros Hlen Hj Hpos. unfold assemble.
  pose proof (lookup_lt_Some _ _ _ Hj) as Hlt.
  destruct (Nat.eq_dec j 9%nat) as [-> | Hne].
  - destruct Hpos as [-> | ?]; [|congruence].
    rewrite (nth_lookup_Some _ _ 0 _ Hj). cbn [Z.eqb Pos.eqb andb].
    rewrite orb_true_r. reflexivity.
  - rewrite (existsb_X_lookup (take 9 body) j)
      by (rewrite lookup_take_lt by lia; exact Hj).
    reflexivity.
Qed.

(** C5, as the code has it. When the text left after the urn prefix
    has at most 17 bytes and its surviving digit values number 10, or
    number 13 and start with an allow-listed prefix, a value 10 (an X)
    anywhere but at index 9 of a 10-long sequence makes [Parse] fail
    with [InvalidCharacterPositionError]. *)
Theorem X_placement s t i :
  trimURN s = Ok t -> (len t <= 17)%nat ->
  length (survivors t) = 10%nat \/
  (length (survivors t) = 13%nat /\
   isAllowedPrefix (take 3 (survivors t)) = true) ->
  survivors t !! i = Some 10 ->
  ~ (length (survivors t) = 10%nat /\ i = 9%nat) ->
  Parse s = Err InvalidCharacterPositionError.
Proof.
  rewrite survivors_digitValues.
  intros Ht Hlen Hcount Hi Hpos. rewrite (Parse_text s t Ht).
  destruct (Nat.ltb_spec 17 (len t)); [lia|]. cbv zeta.
  destruct Hcount as [H10 | [H13 Hp]].
  - rewrite H10. cbn [Nat.eqb].
    apply (assemble_X _ _ _ i); [assumption | assumption | right; lia].
  - rewrite H13, Hp. cbn [Nat.eqb].
    apply isAllowedPrefix_cases in Hp.
    destruct (digitValues t) as [|m0 [|m1 [|m2 body]]]; try discriminate.
    change (drop 3 (m0 :: m1 :: m2 :: body)) with body.
    change (take 3 (m0 :: m1 :: m2 :: body)) with [m0; m1; m2] in Hp.
    destruct i as [|[|[|j]]]; cbn [lookup list_lookup] in Hi.
    1-3: exfalso; destruct Hp as [Hp | Hp]; congruence.
    apply (assemble_X _ _ _ j); [cbn [length] in H13; lia | exact Hi | now left].
Qed.

Lemma X_placement_witness :
  trimURN "97808X4429573" = Ok "97808X4429573"%string /\
  Parse "97808X4429573" = Err InvalidCharacterPositionError.
Proof.
  split; [reflexivity|].
  apply (X_placement "97808X4429573" "97808X4429573" 5);
    [reflexivity | vm_compute; lia | right; split; vm_compute; reflexivity
    | vm_compute; reflexivity | vm_compute; intros [? ?]; discriminate].
Defined.

(** C5 as stated fails: with 13 surviving values and an X in the
    prefix, the prefix check comes first and [Parse] fails with
    [PrefixError]. *)
Lemma X_in_prefix_counterexample :
  length (survivors "X780836220889") = 13%nat /\
  survivors "X780836220889" !! 0%nat = Some 10 /\
  Parse "X780836220889" = Err (PrefixError "X78") /\
  Parse "X780836220889" <> Err InvalidCharacterPositionError.
Proof.
  repeat split; try (vm_compute; reflexivity). vm_compute. discriminate.
Qed.

End Rejections.

(** ** Separators *)

Section Separators.

Lemma digitValues_app s t :
  digitValues (s ++ t) = digitValues s ++ digitValues t.
Proof. unfold digitValues. rewrite bytes_app. apply flat_map_app. Qed.

Lemma digitValue_cases b :
  (isDigitByte b = true /\ digitValue b = [runeToISBNDigit b]) \/
  (isDigitByte b = false /\ digitValue b = []).
Proof.
  unfold isDigitByte, digitValue.
  destruct (Z.leb_spec 0 (runeToISBNDigit b)), (Z.ltb_spec (runeToISBNDigit b) 0);
    try lia; auto.
Qed.

Lemma flat_map_digitValue_filter l :
  flat_map digitValue (List.filter isDigitByte l) = flat_map digitValue l.
Proof.
  induction l as [|b l IH]; [reflexivity|]. cbn [List.filter flat_map].
  destruct (digitValue_cases b) as [[-> Hb] | [-> Hb]]; cbn [flat_map];
    rewrite Hb, IH; reflexivity.
Qed.


Lemma Forall_filter_range (l : list Z) f :
  Forall (fun b => 0 <= b < 256) l ->
  Forall (fun b => 0 <= b < 256) (List.filter f l).
Proof.
  induction 1 as [|b l Hb _ IH]; cbn [List.filter]; [constructor|].
  destruct (f b); [constructor|]; assumption.
Qed.

Lemma bytes_digitsOnly s :
  bytes (digitsOnly s) = List.filter isDigitByte (bytes s).
Proof.
  unfold digitsOnly. apply bytes_string_of_bytes, Forall_filter_range,
    Forall_bytes_range.
Qed.

Lemma digitValues_digitsOnly s : digitValues (digitsOnly s) = digitValues s.
Proof.
  unfold digitValues. rewrite bytes_digitsOnly.
  apply flat_map_digitValue_filter.
Qed.


(** A text made of digit characters only does not start with the urn
    prefix. *)
Lemma digitsOnly_no_urn s : HasPrefix (digitsOnly s) urnPrefix = false.
Proof.
  destruct (HasPrefix (digitsOnly s) urnPrefix) eqn:Hp; [|reflexivity].
  exfalso. destruct (prefix_app _ _ Hp) as [t Ht].
  apply (f_equal bytes) in Ht. rewrite bytes_digitsOnly, bytes_app in Ht.
  assert (In 117 (List.filter isDigitByte (bytes s))) as Hin
    by (rewrite Ht; left; reflexivity).
  apply filter_In in Hin as [_ Hu]. vm_compute in Hu. discriminate.
Qed.

Lemma trimURN_no_prefix s : HasPrefix s urnPrefix = false -> trimURN s = Ok s.
Proof. intros H. unfold trimURN. rewrite H. reflexivity. Qed.

Lemma same_outcome_refl r : same_outcome r r.
Proof. destruct r as [n | [] |]; simpl; auto. Qed.

Lemma same_outcome_Ok r1 r2 v : same_outcome r1 r2 -> r1 = Ok v -> r2 = Ok v.
Proof.
  intros H ->. destruct r2 as [n | e |]; simpl in H; try contradiction.
  congruence.
Qed.

(** Texts within the length bound with the same surviving digit values
    have the same outcome. *)
Lemma Parse_same_values s1 t1 s2 t2 :
  trimURN s1 = Ok t1 -> trimURN s2 = Ok t2 ->
  (len t1 <= 17)%nat -> (len t2 <= 17)%nat ->
  digitValues t1 = digitValues t2 ->
  same_outcome (Parse s1) (Parse s2).
Proof.
  intros H1 H2 Hl1 Hl2 Hd.
  rewrite (Parse_text s1 t1 H1), (Parse_text s2 t2 H2), Hd.
  destruct (Nat.ltb_spec 17 (len t1)); [lia|].
  destruct (Nat.ltb_spec 17 (len t2)); [lia|]. cbv zeta.
  destruct (length (digitValues t2) =? 13)%nat.
  - destruct (isAllowedPrefix _); [apply same_outcome_refl | exact I].
  - apply same_outcome_refl.
Qed.

Lemma Parse_short t s :
  trimURN s = Ok t -> (len t <= 17)%nat -> (length (digitValues t) < 10)%nat ->
  Parse s = Err DigitCountError.
Proof.
  intros Ht Hl Hd. rewrite (Parse_text s t Ht).
  destruct (Nat.ltb_spec 17 (len t)); [lia|]. cbv zeta.
  destruct (Nat.eqb_spec (length (digitValues t)) 13); [lia|].
  destruct (Nat.eqb_spec (length (digitValues t)) 10); [lia|]. reflexivity.
Qed.

Lemma digitValues_urn t : digitValues (urnPrefix ++ t) = digitValues t.
Proof. rewrite digitValues_app. reflexivity. Qed.

Lemma len_urn t : len (urnPrefix ++ t) = (9 + len t)%nat.
Proof. rewrite len_app. reflexivity. Qed.

(** The same, for whole inputs of equal length: whether or not either
    starts with the urn prefix. *)
Lemma Parse_same_length s1 s2 :
  len s1 = len s2 -> (len s1 <= 17)%nat ->
  digitValues s1 = digitValues s2 ->
  same_outcome (Parse s1) (Parse s2).
Proof.
  intros Hlen Hl Hd.
  destruct (trimURN_cases s1) as [[_ H1] | (t1 & E1 & H1)],
           (trimURN_cases s2) as [[_ H2] | (t2 & E2 & H2)].
  - apply (Parse_same_values s1 s1 s2 s2); (assumption || lia).
  - subst s2. rewrite digitValues_urn in Hd. rewrite len_urn in Hlen.
    pose proof (length_digitValues_le t2).
    rewrite (Parse_short s1 s1) by (rewrite ?Hd; (assumption || lia)).
    rewrite (Parse_short t2 (urnPrefix ++ t2)) by (assumption || lia).
    reflexivity.
  - subst s1. rewrite digitValues_urn in Hd. rewrite len_urn in Hlen, Hl.
    pose proof (length_digitValues_le t1).
    rewrite (Parse_short t1 (urnPrefix ++ t1)) by (assumption || lia).
    rewrite (Parse_short s2 s2) by (rewrite <- ?Hd; (assumption || lia)).
    reflexivity.
  - subst s1 s2. rewrite !digitValues_urn in Hd. rewrite !len_urn in *.
    apply (Parse_same_values _ t1 _ t2); (assumption || lia).
Qed.


Lemma lor_upper a b : 0 <= a -> 0 <= b -> Z.lor a b <= a + b.
Proof.
  intros Ha Hb. pose proof (Z.add_lor_land a b).
  assert (0 <= Z.land a b) by (apply Z.land_nonneg; lia). lia.
Qed.

Lemma lor_byte c x :
  0x80 <= c -> 0 <= x -> c + x < 256 -> 0x80 <= Z.lor c x < 256.
Proof.
  intros Hc Hx Hs. pose proof (lor_ge_l c x Hx).
  pose proof (lor_upper c x ltac:(lia) Hx). lia.
Qed.

(** The encoding of a rune is either the rune itself, one ASCII byte,
    or bytes that are all at least [0x80]. *)
Lemma EncodeRune_cases r :
  (0 <= r <= 0x7F /\ utf8.EncodeRune r = [r]) \/
  Forall (fun b => 0x80 <= b < 256) (utf8.EncodeRune r).
Proof.
  unfold utf8.EncodeRune, utf8.encode3, utf8.MaxRune, utf8.RuneError.
  destruct (Z.leb_spec 0 r), (Z.leb_spec r 0x7F); cbn [andb]; auto; right.
  all: destruct (Z.leb_spec r 0x7FF); cbn [andb orb].
  all: destruct (Z.ltb_spec r 0); cbn [andb orb].
  all: try destruct (Z.ltb_spec 0x10FFFF r); cbn [andb orb].
  all: try destruct (Z.leb_spec 0xD800 r); cbn [andb orb].
  all: try destruct (Z.leb_spec r 0xDFFF); cbn [andb orb].
  all: try destruct (Z.leb_spec r 0xFFFF); cbn [andb orb].
  all: try lia.
  all: try (repeat constructor; vm_compute; intuition discriminate).
  all: change 63 with (Z.ones 6);
       rewrite ?Z.land_ones, ?Z.shiftr_div_pow2 by lia.
  all: repeat constructor; apply lor_byte; try lia;
       Z.div_mod_to_equations; lia.
Qed.

Lemma encode_range r : Forall (fun b => 0 <= b < 256) (utf8.EncodeRune r).
Proof.
  destruct (EncodeRune_cases r) as [[Hr ->] | H].
  - repeat constructor; lia.
  - eapply Forall_impl; [exact H|]. simpl. intros; lia.
Qed.

Lemma bytes_char r : bytes (char r) = utf8.EncodeRune r.
Proof. apply bytes_string_of_bytes, encode_range. Qed.

(** A character that [runeToISBNDigit] drops leaves no digit value,
    whatever its encoding. *)
Lemma digitValues_char r : runeToISBNDigit r < 0 -> digitValues (char r) = [].
Proof.
  intros Hr. unfold digitValues. rewrite bytes_char.
  destruct (EncodeRune_cases r) as [[_ ->] | H].
  - cbn [flat_map]. unfold digitValue.
    destruct (Z.ltb_spec (runeToISBNDigit r) 0); [reflexivity | lia].
  - induction H as [|b l Hb _ IH]; [reflexivity|]. cbn [flat_map].
    rewrite IH. unfold digitValue.
    rewrite runeToISBNDigit_high by lia. reflexivity.
Qed.

Lemma digitValues_around pre r post :
  runeToISBNDigit r < 0 ->
  digitValues (pre ++ char r ++ post) = digitValues pre ++ digitValues post.
Proof.
  intros Hr. rewrite !digitValues_app, digitValues_char by assumption.
  reflexivity.
Qed.




Lemma separator_iff r :
  runeToISBNDigit r < 0 <-> ~ (48 <= r <= 57) /\ r <> 120 /\ r <> 88.
Proof.
  unfold runeToISBNDigit.
  destruct (Z.leb_spec 48 r), (Z.leb_spec r 57); cbn [andb]; try lia;
    destruct (Z.eqb_spec r 120), (Z.eqb_spec r 88); cbn [orb]; lia.
Qed.

(** The text after the urn prefix carries the digit values of the
    whole input. *)
Lemma trimURN_digitValues s t :
  trimURN s = Ok t -> digitValues t = digitValues s.
Proof.
  intros Ht. destruct (trimURN_cases s) as [[_ H] | (t' & E & H)].
  - congruence.
  - subst s. rewrite digitValues_urn. congruence.
Qed.

(** C10, as the code has it. A character that is not '0'-'9', 'x' or
    'X' leaves no digit value.  Replacing such a character by another
    one gives the same outcome, the same ISBN or an error of the same
    kind (a [PrefixError] echoes the first three raw bytes, which may
    differ), whenever the text after the urn prefix has at most 17
    bytes both before and after the replacement.  A valid ISBN with
    such characters in between parses to the same value as long as the
    text after the urn prefix has at most 17 bytes. *)
Theorem separators_interchangeable :
  (forall pre post r,
     runeToISBNDigit r < 0 ->
     survivors (pre ++ char r ++ post) = survivors pre ++ survivors post) /\
  (forall pre post r1 r2 t1 t2,
     runeToISBNDigit r1 < 0 -> runeToISBNDigit r2 < 0 ->
     trimURN (pre ++ char r1 ++ post) = Ok t1 ->
     trimURN (pre ++ char r2 ++ post) = Ok t2 ->
     (len t1 <= 17)%nat -> (len t2 <= 17)%nat ->
     same_outcome (Parse (pre ++ char r1 ++ post))
                  (Parse (pre ++ char r2 ++ post))) /\
  (forall s t v,
     Parse (digitsOnly s) = Ok v ->
     trimURN s = Ok t -> (len t <= 17)%nat ->
     Parse s = Ok v).
Proof.
  split; [|split].
  - intros pre post r Hr. rewrite !survivors_digitValues.
    apply digitValues_around, Hr.
  - intros pre post r1 r2 t1 t2 H1 H2 Ht1 Ht2 Hl1 Hl2.
    apply (Parse_same_values _ t1 _ t2); try assumption.
    rewrite (trimURN_digitValues _ _ Ht1), (trimURN_digitValues _ _ Ht2).
    rewrite !digitValues_around by assumption. reflexivity.
  - intros s t v Hd Ht Hl.
    pose proof (trimURN_no_prefix _ (digitsOnly_no_urn s)) as Htd.
    destruct (Parse_Ok_inv _ _ Hd) as (t' & Ht' & Hlt & _).
    rewrite Htd in Ht'. injection Ht' as <-.
    apply (same_outcome_Ok (Parse (digitsOnly s))); [|exact Hd].
    apply (Parse_same_values _ (digitsOnly s) _ t); try assumption.
    rewrite (trimURN_digitValues _ _ Ht). apply digitValues_digitsOnly.
Qed.

Lemma separators_interchangeable_witness :
  survivors ("0-8044" ++ char 45 ++ "2957-X")
  = survivors "0-8044" ++ survivors "2957-X" /\
  same_outcome (Parse ("urn:isbn:0-8044" ++ char 45 ++ "2957-X"))
               (Parse ("urn:isbn:0-8044" ++ char 233 ++ "2957-X")) /\
  Parse "urn:isbn:0a8044b2957.X"
  = Ok (mkISBN false [0; 0; 0] [0; 8; 0; 4; 4; 2; 9; 5; 7] 10).
Proof.
  split; [|split].
  - apply (proj1 separators_interchangeable). reflexivity.
  - apply (proj1 (proj2 separators_interchangeable)
             "urn:isbn:0-8044"%string "2957-X"%string 45 233
             ("0-8044" ++ char 45 ++ "2957-X")%string
             ("0-8044" ++ char 233 ++ "2957-X")%string);
      [reflexivity | reflexivity | reflexivity | reflexivity
      | vm_compute; lia | vm_compute; lia].
  - apply (proj2 (proj2 separators_interchangeable)
             "urn:isbn:0a8044b2957.X"%string "0a8044b2957.X"%string);
      [vm_compute; reflexivity | reflexivity | vm_compute; lia].
Defined.

(** C10 as stated fails.  "978-0-8044-2957-3" has 17 characters and
    parses; with its first hyphen replaced by the two-byte character
    U+00E9 it still has 17 characters, but 18 bytes, and is rejected.
    And replacing a hyphen by a space in front of a prefix that is not
    allow-listed changes the text the error carries. *)
Lemma separator_replacement_counterexample :
  let s1 := ("978" ++ char 45 ++ "0-8044-2957-3")%string in
  let s2 := ("978" ++ char 233 ++ "0-8044-2957-3")%string in
  (runeToISBNDigit 45 = -1 /\ runeToISBNDigit 233 = -1 /\
   length (utf8.runes s1) = 17%nat /\ length (utf8.runes s2) = 17%nat /\
   Parse s1 = Ok (mkISBN true [9; 7; 8] [0; 8; 0; 4; 4; 2; 9; 5; 7] 3) /\
   Parse s2 = Err FormatError) /\
  (runeToISBNDigit 32 = -1 /\
   Parse (char 45 ++ "1234567890123") = Err (PrefixError "-12") /\
   Parse (char 32 ++ "1234567890123") = Err (PrefixError " 12")).
Proof. vm_compute. repeat split; reflexivity. Qed.

End Separators.

(** ** No panic, and the scenarios of the test suite *)

Section Scenarios.

Lemma assemble_no_panic is13 pre body : assemble is13 pre body <> Panic.
Proof.
  unfold assemble. destruct (_ || _); [discriminate|].
  cbv zeta. destruct (isValid _); discriminate.
Qed.

(** No index or slice of [Parse] leaves its range: every input is either
    parsed or rejected with an error. *)
Lemma Parse_no_panic s : Parse s <> Panic.
Proof.
  destruct (trimURN_total s) as [t Ht]. rewrite (Parse_text s t Ht).
  destruct (17 <? len t)%nat; [discriminate|]. cbv zeta.
  destruct (length (digitValues t) =? 13)%nat.
  - destruct (isAllowedPrefix _); [apply assemble_no_panic | discriminate].
  - destruct (length (digitValues t) =? 10)%nat;
      [apply assemble_no_panic | discriminate].
Qed.

Lemma Validate_true s : Validate s = Ok true <-> exists n, Parse s = Ok n.
Proof.
  unfold Validate. destruct (Parse s) as [n | e |]; split;
    try discriminate; eauto; intros [n' H]; discriminate.
Qed.

Lemma Validate_false s : Validate s = Ok false <-> exists e, Parse s = Err e.
Proof.
  unfold Validate. destruct (Parse s) as [n | e |]; split;
    try discriminate; eauto; intros [e' H]; discriminate.
Qed.

Example parse_isbn10 :
  Parse "0836220889" = Ok (mkISBN false [0; 0; 0] [0; 8; 3; 6; 2; 2; 0; 8; 8] 9).
Proof. vm_compute. reflexivity. Qed.

Example parse_isbn13 :
  Parse "9780836220889" = Ok (mkISBN true [9; 7; 8] [0; 8; 3; 6; 2; 2; 0; 8; 8] 9).
Proof. vm_compute. reflexivity. Qed.

Example parse_X :
  Parse "080442957X" = Ok (mkISBN false [0; 0; 0] [0; 8; 0; 4; 4; 2; 9; 5; 7] 10).
Proof. vm_compute. reflexivity. Qed.

Example parse_urn_spaces :
  Parse "urn:isbn:080 442-95-7x"
  = Ok (mkISBN false [0; 0; 0] [0; 8; 0; 4; 4; 2; 9; 5; 7] 10).
Proof. vm_compute. reflexivity. Qed.

Example parse_979 :
  Parse "979-5000000235" = Ok (mkISBN true [9; 7; 9] [5; 0; 0; 0; 0; 0; 0; 2; 3] 5).
Proof. vm_compute. reflexivity. Qed.

Example round_trip_979 :
  let n := mkISBN true [9; 7; 9] [5; 0; 0; 0; 0; 0; 0; 2; 3] 5 in
  String_ n = Some "979-5000000235"%string /\
  String_ (To10 n) = Some "5000000234"%string /\
  String_ (To13 (To10 n)) = Some "979-5000000235"%string.
Proof. vm_compute. repeat split; reflexivity. Qed.

Example parse_bad_checksum : Parse "0836220888" = Err ChecksumError.
Proof. vm_compute. reflexivity. Qed.

Example parse_too_many_digits : Parse "08362208891" = Err DigitCountError.
Proof. vm_compute. reflexivity. Qed.

Example parse_too_many_separators :
  Parse "urn:isbn:97 8-0-8 0-4-4-2 9-5-7-3" = Err FormatError.
Proof. vm_compute. reflexivity. Qed.

Example parse_two_X : Parse "08044295XX" = Err InvalidCharacterPositionError.
Proof. vm_compute. reflexivity. Qed.

Example validate_badformat : Validate "badformat!" = Ok false.
Proof. vm_compute. reflexivity. Qed.

Example equivalent_forms :
  EquivalientTo (Some (mkISBN false [0; 0; 0] [0; 8; 0; 4; 4; 2; 9; 5; 7] 10))
                (Some (mkISBN true [9; 7; 8] [0; 8; 0; 4; 4; 2; 9; 5; 7] 3))
  = true.
Proof. reflexivity. Qed.

(** The runes of a text with a two-byte, a three-byte and a four-byte
    character, and of a stray continuation byte. *)
Example runes_multibyte :
  utf8.runes ("a" ++ char 233 ++ char 8364 ++ char 66376 ++ "z")
  = [97; 233; 8364; 66376; 122].
Proof. vm_compute. reflexivity. Qed.

Example runes_invalid :
  utf8.runes (string_of_bytes [0x30; 0xA9; 0xC3; 0x31]) = [48; 0xFFFD; 0xFFFD; 49].
Proof. vm_compute. reflexivity. Qed.

End Scenarios.

(** ** Printing and parsing back *)

Section PrintParse.

Lemma digit_char_range d : 0 <= d <= 10 -> 0 <= digit_char d < 256.
Proof. unfold digit_char. destruct (Z.eqb_spec d 10); lia. Qed.

Lemma digitValue_digit_char d : 0 <= d <= 10 -> digitValue (digit_char d) = [d].
Proof.
  intros Hd. assert (d = 0 \/ d = 1 \/ d = 2 \/ d = 3 \/ d = 4 \/ d = 5 \/
                     d = 6 \/ d = 7 \/ d = 8 \/ d = 9 \/ d = 10) as H by lia.
  repeat (destruct H as [-> | H]; [reflexivity|]). subst. reflexivity.
Qed.

Lemma bytes_text l :
  Forall (fun d => 0 <= d <= 10) l ->
  bytes (string_of_bytes (map digit_char l)) = map digit_char l.
Proof.
  intros H. apply bytes_string_of_bytes.
  induction H as [|d l Hd _ IH]; cbn [map]; constructor;
    [apply digit_char_range, Hd | exact IH].
Qed.

(** The text of digit values reads back as those values. *)
Lemma digitValues_text l :
  Forall (fun d => 0 <= d <= 10) l ->
  digitValues (string_of_bytes (map digit_char l)) = l.
Proof.
  intros H. unfold digitValues. rewrite bytes_text by assumption.
  induction H as [|d l Hd _ IH]; [reflexivity|]. cbn [map flat_map].
  rewrite digitValue_digit_char, IH by assumption. reflexivity.
Qed.

Lemma len_text l : len (string_of_bytes (map digit_char l)) = length l.
Proof. rewrite len_string_of_bytes, length_map. reflexivity. Qed.

(** A text that starts with a digit character does not start with the
    urn prefix. *)
Lemma no_urn_head s d rest :
  0 <= d <= 10 -> bytes s = digit_char d :: rest ->
  HasPrefix s urnPrefix = false.
Proof.
  intros Hd Hs.
  destruct (HasPrefix s urnPrefix) eqn:Hp; [|reflexivity]. exfalso.
  destruct (prefix_app _ _ Hp) as [t Ht]. apply (f_equal bytes) in Ht.
  rewrite bytes_app, Hs in Ht. injection Ht as Hc _.
  change (byte_of_ascii "u") with 117 in Hc. unfold digit_char in Hc.
  destruct (Z.eqb_spec d 10); lia.
Qed.

Lemma text_no_urn d l rest :
  0 <= d <= 10 -> Forall (fun d => 0 <= d <= 10) l ->
  HasPrefix (string_of_bytes (map digit_char (d :: l)) ++ rest) urnPrefix = false.
Proof.
  intros Hd Hl. apply (no_urn_head _ d (map digit_char l ++ bytes rest) Hd).
  rewrite bytes_app, bytes_text by (constructor; assumption). reflexivity.
Qed.

Lemma existsb_X_digits l :
  Forall (fun d => 0 <= d <= 9) l -> existsb (Z.eqb 10) l = false.
Proof.
  induction 1 as [|d l Hd _ IH]; [reflexivity|]. cbn [existsb].
  rewrite IH. destruct (Z.eqb_spec 10 d); [lia | reflexivity].
Qed.

(** The ten values of a well-formed value are assembled into that
    value. *)
Lemma assemble_WellFormed n pre :
  WellFormed n -> (is13 n = true -> pre = prefix n) ->
  assemble (is13 n) pre (digits n ++ [checksum n])
  = Ok (mkISBN (is13 n) pre (digits n) (checksum n)).
Proof.
  intros [Hl Hd Hc Hv Hx Hpl Hp] Hpre. unfold assemble.
  rewrite take_app_length' by (symmetry; exact Hl).
  rewrite existsb_X_digits by exact Hd. cbn [orb].
  replace (nth 9 (digits n ++ [checksum n]) 0) with (checksum n)
    by (rewrite app_nth2, Hl by lia; reflexivity).
  assert ((checksum n =? 10) && is13 n = false) as ->.
  { destruct (Z.eqb_spec (checksum n) 10) as [E | E]; [|reflexivity].
    rewrite (Hx E). reflexivity. }
  assert (isValid (mkISBN (is13 n) pre (digits n) (checksum n)) = true) as ->.
  { unfold isValid. cbn [is13 prefix digits checksum].
    destruct (is13 n) eqn:E.
    - rewrite (Hpre eq_refl). apply Z.eqb_eq. congruence.
    - apply Z.eqb_eq. congruence. }
  reflexivity.
Qed.

Lemma WellFormed_values n :
  WellFormed n -> Forall (fun d => 0 <= d <= 10) (digits n ++ [checksum n]).
Proof.
  intros [Hl Hd Hc _ _ _ _]. apply Forall_app. split; [|repeat constructor; lia].
  eapply Forall_impl; [exact Hd|]. simpl. intros; lia.
Qed.

(** [Parse] reads the text [String] prints back into the value printed;
    an ISBN-10 comes back with the zero prefix. *)
Lemma Parse_rendering n s :
  WellFormed n -> String_ n = Some s ->
  Parse s = Ok (mkISBN (is13 n) (if is13 n then prefix n else [0; 0; 0])
                       (digits n) (checksum n)).
Proof.
  intros Hwf Hs. rewrite (String_WellFormed n Hwf) in Hs. injection Hs as <-.
  pose proof (WellFormed_values n Hwf) as Hall.
  pose proof Hwf as [Hl Hd Hc Hv Hx Hpl Hp].
  destruct (is13 n) eqn:E; cbv iota.
  - specialize (Hp eq_refl).
    assert (Forall (fun d => 0 <= d <= 10) (prefix n)) as Hpre
      by (apply isAllowedPrefix_cases in Hp as [-> | ->]; repeat constructor; lia).
    set (text := (string_of_bytes (map digit_char (prefix n)) ++ "-"
                  ++ string_of_bytes (map digit_char (digits n ++ [checksum n])))%string).
    assert (trimURN text = Ok text) as Ht.
    { apply trimURN_no_prefix. subst text.
      destruct (prefix n) as [|p0 ps] eqn:Ep; [discriminate Hpl|].
      apply Forall_cons in Hpre as [Hp0 Hps].
      apply (no_urn_head _ p0
               (map digit_char ps ++ bytes "-"
                ++ map digit_char (digits n ++ [checksum n])) Hp0).
      rewrite !bytes_app, !bytes_text by (try constructor; assumption).
      reflexivity. }
    assert (digitValues text = prefix n ++ digits n ++ [checksum n]) as Hdv
      by (subst text; rewrite !digitValues_app, !digitValues_text by assumption;
          reflexivity).
    assert (len text = 14%nat) as Hlen
      by (subst text; rewrite !len_app, !len_text, length_app, Hl, Hpl; reflexivity).
    change (Parse text = Ok (mkISBN true (prefix n) (digits n) (checksum n))).
    rewrite (Parse_text text text Ht), Hlen, Hdv. cbv zeta.
    rewrite !length_app, Hl, Hpl. cbn [length Nat.add Nat.ltb Nat.leb Nat.eqb].
    rewrite take_app_length', drop_app_length' by (symmetry; exact Hpl).
    rewrite Hp. rewrite <- E at 1. rewrite assemble_WellFormed by auto.
    rewrite E. reflexivity.
  - set (text := string_of_bytes (map digit_char (digits n ++ [checksum n]))).
    assert (trimURN text = Ok text) as Ht.
    { apply trimURN_no_prefix. subst text.
      destruct (digits n) as [|d ds] eqn:Ed; [discriminate Hl|].
      apply Forall_cons in Hall as [Hd0 Hall].
      apply (no_urn_head _ d (map digit_char (ds ++ [checksum n])) Hd0).
      rewrite <- Ed. rewrite bytes_text; rewrite Ed; [reflexivity|].
      constructor; assumption. }
    assert (digitValues text = digits n ++ [checksum n]) as Hdv
      by (subst text; apply digitValues_text, Hall).
    assert (len text = 10%nat) as Hlen
      by (subst text; rewrite len_text, length_app, Hl; reflexivity).
    change (Parse text = Ok (mkISBN false [0; 0; 0] (digits n) (checksum n))).
    rewrite (Parse_text text text Ht), Hlen, Hdv. cbv zeta.
    rewrite !length_app, Hl. cbn [length Nat.add Nat.ltb Nat.leb Nat.eqb].
    rewrite <- E at 1. rewrite assemble_WellFormed by (auto; congruence).
    rewrite E. reflexivity.
Qed.

Lemma prefix_append p t : String.prefix p (p ++ t) = true.
Proof.
  induction p as [|c p IH]; [destruct t; reflexivity|]. simpl.
  destruct (ascii_dec c c); [exact IH | contradiction].
Qed.

Lemma trimURN_urn t : trimURN (urnPrefix ++ t) = Ok t.
Proof.
  unfold trimURN, HasPrefix. rewrite prefix_append.
  unfold slice_from. rewrite len_app.
  destruct (Nat.leb_spec (len urnPrefix) (len urnPrefix + len t)); [|lia].
  rewrite <- len_app, substring_app_r. reflexivity.
Qed.

(** The urn form of a text parses as the text itself, provided the
    text has no urn prefix of its own. *)
Lemma Parse_urn t :
  HasPrefix t urnPrefix = false -> Parse (urnPrefix ++ t) = Parse t.
Proof.
  intros Hp.
  rewrite (Parse_text _ t (trimURN_urn t)).
  rewrite (Parse_text t t (trimURN_no_prefix t Hp)). reflexivity.
Qed.

Lemma String_no_urn n s :
  WellFormed n -> String_ n = Some s -> HasPrefix s urnPrefix = false.
Proof.
  intros Hwf Hs. rewrite (String_WellFormed n Hwf) in Hs. injection Hs as <-.
  pose proof (WellFormed_values n Hwf) as Hall.
  pose proof Hwf as [Hl Hd Hc Hv Hx Hpl Hp].
  destruct (is13 n) eqn:E.
  - specialize (Hp eq_refl).
    assert (Forall (fun d => 0 <= d <= 10) (prefix n)) as Hpre
      by (apply isAllowedPrefix_cases in Hp as [-> | ->]; repeat constructor; lia).
    destruct (prefix n) as [|p0 ps] eqn:Ep; [discriminate Hpl|].
    apply Forall_cons in Hpre as [Hp0 Hps].
    apply text_no_urn; assumption.
  - destruct (digits n) as [|d ds] eqn:Ed; [discriminate Hl|].
    apply Forall_cons in Hall as [Hd0 Hall].
    apply (no_urn_head _ d (map digit_char (ds ++ [checksum n])) Hd0).
    rewrite bytes_text by (constructor; assumption). reflexivity.
Qed.

(** X1. [Parse] reads back what [String] prints: for every value the
    package produces, the printed text parses to the same form, digits
    and checksum, with the same prefix for an ISBN-13 and the zero
    prefix for an ISBN-10. *)
Theorem Parse_String n :
  produced n ->
  exists s, String_ n = Some s /\
    Parse s = Ok (mkISBN (is13 n) (if is13 n then prefix n else [0; 0; 0])
                         (digits n) (checksum n)).
Proof.
  intros H. apply produced_WellFormed in H.
  destruct (String_total n H) as [s Hs]. exists s.
  split; [exact Hs | exact (Parse_rendering n s H Hs)].
Qed.

Lemma Parse_String_witness :
  let n := mkISBN true [9; 7; 9] [5; 0; 0; 0; 0; 0; 0; 2; 3] 5 in
  produced n /\
  exists s, String_ n = Some s /\
    Parse s = Ok (mkISBN (is13 n) (if is13 n then prefix n else [0; 0; 0])
                         (digits n) (checksum n)).
Proof.
  assert (produced (mkISBN true [9; 7; 9] [5; 0; 0; 0; 0; 0; 0; 2; 3] 5)) as H
    by (apply (produced_Parse "979-5000000235"); vm_compute; reflexivity).
  split; [exact H | exact (Parse_String _ H)].
Defined.

Lemma Parse_ToURN_WellFormed n :
  WellFormed n ->
  exists s, ToURN n = Some s /\
    Parse s = Ok (mkISBN (is13 n) (if is13 n then prefix n else [0; 0; 0])
                         (digits n) (checksum n)).
Proof.
  intros H.
  destruct (String_total n H) as [s Hs]. exists (urnPrefix ++ s)%string.
  unfold ToURN. rewrite Hs. split; [reflexivity|].
  rewrite (Parse_urn s (String_no_urn n s H Hs)).
  exact (Parse_rendering n s H Hs).
Qed.

(** X2. [Parse] reads back what [ToURN] prints, in the same way. *)
Theorem Parse_ToURN n :
  produced n ->
  exists s, ToURN n = Some s /\
    Parse s = Ok (mkISBN (is13 n) (if is13 n then prefix n else [0; 0; 0])
                         (digits n) (checksum n)).
Proof.
  intros H. apply Parse_ToURN_WellFormed, produced_WellFormed, H.
Qed.

Lemma Parse_ToURN_witness :
  let n := mkISBN false [0; 0; 0] [0; 8; 0; 4; 4; 2; 9; 5; 7] 10 in
  produced n /\
  exists s, ToURN n = Some s /\
    Parse s = Ok (mkISBN (is13 n) (if is13 n then prefix n else [0; 0; 0])
                         (digits n) (checksum n)).
Proof.
  assert (produced (mkISBN false [0; 0; 0] [0; 8; 0; 4; 4; 2; 9; 5; 7] 10)) as H
    by (apply (produced_Parse "080442957X"); vm_compute; reflexivity).
  split; [exact H | exact (Parse_ToURN _ H)].
Defined.

(** X3. The canonical text of a produced value parses to the ISBN-13
    version of that value. *)
Theorem Parse_Canonical n :
  produced n -> exists s, Canonical n = Some s /\ Parse s = Ok (To13 n).
Proof.
  intros H.
  destruct (Parse_ToURN_WellFormed (To13 n)
              (To13_WellFormed n (produced_WellFormed n H))) as (s & Hs & Hp).
  exists s. split; [exact Hs|]. rewrite Hp.
  pose proof (To13_is13 n) as E. destruct (To13 n) as [i p d c].
  cbn [is13 prefix digits checksum] in *. subst i. reflexivity.
Qed.

Lemma Parse_Canonical_witness :
  let n := mkISBN false [0; 0; 0] [0; 8; 0; 4; 4; 2; 9; 5; 7] 10 in
  produced n /\ exists s, Canonical n = Some s /\ Parse s = Ok (To13 n).
Proof.
  assert (produced (mkISBN false [0; 0; 0] [0; 8; 0; 4; 4; 2; 9; 5; 7] 10)) as H
    by (apply (produced_Parse "080442957X"); vm_compute; reflexivity).
  split; [exact H | exact (Parse_Canonical _ H)].
Defined.

(** X4. The urn prefix is stripped once: a text without the prefix
    parses the same with the prefix in front, and no text with the
    prefix twice in front parses. *)
Theorem urn_stripped_once t :
  (HasPrefix t urnPrefix = false -> Parse (urnPrefix ++ t) = Parse t) /\
  (forall n, Parse (urnPrefix ++ urnPrefix ++ t) <> Ok n).
Proof.
  split; [apply Parse_urn|]. intros n H.
  apply Parse_Ok_inv in H as (t' & Ht & Hlen & Hcount).
  rewrite trimURN_urn in Ht.
  assert (t' = (urnPrefix ++ t)%string) as -> by congruence.
  rewrite digitValues_urn in Hcount. rewrite len_urn in Hlen.
  pose proof (length_digitValues_le t).
  destruct Hcount as [[? _] | [? _]]; lia.
Qed.

Lemma urn_stripped_once_witness :
  Parse "urn:isbn:0836220889" = Parse "0836220889" /\
  (forall n, Parse "urn:isbn:urn:isbn:0836220889" <> Ok n).
Proof.
  split.
  - apply (proj1 (urn_stripped_once "0836220889")). reflexivity.
  - apply (proj2 (urn_stripped_once "0836220889")).
Defined.

End PrintParse.

(** ** When [Parse] accepts, and which error it returns *)

Section Taxonomy.

Lemma existsb_X_none l :
  Forall (fun d => d <> 10) l <-> existsb (Z.eqb 10) l = false.
Proof.
  induction l as [|d l IH]; cbn [existsb]; [split; auto|].
  rewrite Forall_cons, orb_false_iff, IH, Z.eqb_neq. intuition congruence.
Qed.

Lemma assemble_app is13 pre ds c :
  length ds = 9%nat ->
  assemble is13 pre (ds ++ [c])
  = if existsb (Z.eqb 10) ds || ((c =? 10) && is13)
    then Err InvalidCharacterPositionError
    else if isValid (mkISBN is13 pre ds c) then Ok (mkISBN is13 pre ds c)
         else Err ChecksumError.
Proof.
  intros Hl. unfold assemble.
  rewrite take_app_length' by (symmetry; exact Hl).
  replace (nth 9 (ds ++ [c]) 0) with c
    by (rewrite app_nth2, Hl by lia; reflexivity).
  reflexivity.
Qed.

Lemma body_split (body : list Z) :
  length body = 10%nat -> body = take 9 body ++ [nth 9 body 0].
Proof.
  intros H. do 10 (destruct body as [|? body]; [discriminate|]).
  destruct body; [reflexivity | discriminate].
Qed.

(** What [Parse] returns on a text that reads as [n]. *)
Lemma Parse_reads_as s t n :
  trimURN s = Ok t -> reads_as t n ->
  Parse s = if isValid n then Ok n else Err ChecksumError.
Proof.
  intros Ht (Hlen & Hsurv & Hl & Hpre & Hd & Hx).
  rewrite survivors_digitValues in Hsurv.
  rewrite (Parse_text s t Ht), Hsurv.
  destruct (Nat.ltb_spec 17 (len t)); [lia|]. cbv zeta.
  assert (existsb (Z.eqb 10) (digits n) || ((checksum n =? 10) && is13 n) = false)
    as Hok.
  { rewrite (proj1 (existsb_X_none _) Hd). cbn [orb].
    destruct (Z.eqb_spec (checksum n) 10) as [E | E]; [|reflexivity].
    rewrite (Hx E). reflexivity. }
  destruct n as [i p d c]. cbn [is13 prefix digits checksum] in *.
  destruct i.
  - assert (length p = 3%nat) as Hpl
      by (apply isAllowedPrefix_cases in Hpre as [-> | ->]; reflexivity).
    rewrite !length_app, Hl, Hpl. cbn [length Nat.add Nat.eqb].
    rewrite take_app_length', drop_app_length' by (symmetry; exact Hpl).
    rewrite Hpre, assemble_app, Hok by exact Hl. reflexivity.
  - subst p. cbn [app]. rewrite !length_app, Hl. cbn [length Nat.add Nat.eqb].
    rewrite assemble_app, Hok by exact Hl. reflexivity.
Qed.

(** Whenever [Parse] gets as far as the checksum, the text reads as some
    value. *)
Lemma assemble_reads is13 pre body r :
  length body = 10%nat ->
  assemble is13 pre body = r ->
  r = Err InvalidCharacterPositionError \/
  (Forall (fun d => d <> 10) (take 9 body) /\
   (nth 9 body 0 = 10 -> is13 = false) /\
   r = if isValid (mkISBN is13 pre (take 9 body) (nth 9 body 0))
       then Ok (mkISBN is13 pre (take 9 body) (nth 9 body 0))
       else Err ChecksumError).
Proof.
  intros Hlen <-. unfold assemble.
  destruct (existsb (Z.eqb 10) (take 9 body)) eqn:Hx; [left; reflexivity|].
  cbn [orb]. destruct (Z.eqb_spec (nth 9 body 0) 10) as [E | E], is13;
    cbn [andb]; auto; right.
  all: split; [apply existsb_X_none, Hx|]; split; [congruence || auto|];
       reflexivity.
Qed.

Lemma Parse_reaches_checksum s t r :
  trimURN s = Ok t -> Parse s = r ->
  (r = Err ChecksumError \/ exists n, r = Ok n) ->
  exists n, reads_as t n /\ r = if isValid n then Ok n else Err ChecksumError.
Proof.
  intros Ht Hr Hkind. rewrite (Parse_text s t Ht) in Hr.
  destruct (Nat.ltb_spec 17 (len t));
    [subst r; destruct Hkind as [? | [? ?]]; discriminate|].
  cbv zeta in Hr.
  destruct (Nat.eqb_spec (length (digitValues t)) 13) as [H13 | H13].
  - destruct (isAllowedPrefix (take 3 (digitValues t))) eqn:Hp;
      [|subst r; destruct Hkind as [? | [? ?]]; discriminate].
    apply assemble_reads in Hr as [-> | (Hd & Hx & ->)];
      [destruct Hkind as [? | [? ?]]; discriminate | | rewrite length_drop; lia].
    eexists. split; [|reflexivity].
    unfold reads_as. cbn [is13 prefix digits checksum].
    rewrite survivors_digitValues, <- body_split by (rewrite length_drop; lia).
    rewrite take_drop, length_take, length_drop.
    repeat split; auto; lia.
  - destruct (Nat.eqb_spec (length (digitValues t)) 10) as [H10 | H10];
      [|subst r; destruct Hkind as [? | [? ?]]; discriminate].
    apply assemble_reads in Hr as [-> | (Hd & Hx & ->)];
      [destruct Hkind as [? | [? ?]]; discriminate | | exact H10].
    eexists. split; [|reflexivity].
    unfold reads_as. cbn [is13 prefix digits checksum app].
    rewrite survivors_digitValues, <- body_split by exact H10.
    rewrite length_take. repeat split; auto; lia.
Qed.

Lemma Parse_Ok_reads s t n :
  trimURN s = Ok t -> Parse s = Ok n -> reads_as t n /\ isValid n = true.
Proof.
  intros Ht H.
  destruct (Parse_reaches_checksum s t (Ok n) Ht H) as (n' & Hr & Hn);
    [right; eauto|].
  destruct (isValid n') eqn:Hv; [|discriminate].
  injection Hn as ->. auto.
Qed.

(** X5. [Parse] returns [n] exactly when the text left after the urn
    prefix reads as [n] and the checksum of [n] is the one its form
    requires: nothing of the text but its length and its surviving digit
    values matters, and the value returned holds exactly those values. *)
Theorem Parse_accepts s t n :
  trimURN s = Ok t ->
  (Parse s = Ok n <-> reads_as t n /\ isValid n = true).
Proof.
  intros Ht. split.
  - apply Parse_Ok_reads, Ht.
  - intros [Hr Hv]. rewrite (Parse_reads_as s t n Ht Hr), Hv. reflexivity.
Qed.

Lemma Parse_accepts_witness :
  let n := mkISBN false [0; 0; 0] [0; 8; 0; 4; 4; 2; 9; 5; 7] 10 in
  trimURN "urn:isbn:0-8044-2957-x" = Ok "0-8044-2957-x"%string /\
  (Parse "urn:isbn:0-8044-2957-x" = Ok n <->
   reads_as "0-8044-2957-x" n /\ isValid n = true).
Proof.
  split; [reflexivity | apply Parse_accepts; reflexivity].
Defined.

(** X6. [Parse] fails with [ChecksumError] exactly when the text reads
    as a value whose checksum is not the one its form requires. *)
Theorem ChecksumError_iff s t :
  trimURN s = Ok t ->
  (Parse s = Err ChecksumError <->
   exists n, reads_as t n /\ isValid n = false).
Proof.
  intros Ht. split.
  - intros H.
    destruct (Parse_reaches_checksum s t _ Ht H) as (n & Hr & Hn);
      [left; reflexivity|].
    exists n. split; [exact Hr|]. destruct (isValid n); [discriminate | reflexivity].
  - intros (n & Hr & Hv). rewrite (Parse_reads_as s t n Ht Hr), Hv. reflexivity.
Qed.

Lemma ChecksumError_iff_witness :
  trimURN "0836220888" = Ok "0836220888"%string /\
  (Parse "0836220888" = Err ChecksumError <->
   exists n, reads_as "0836220888" n /\ isValid n = false).
Proof.
  split; [reflexivity | apply ChecksumError_iff; reflexivity].
Defined.

Lemma assemble_kind is13 pre body :
  assemble is13 pre body = Err InvalidCharacterPositionError \/
  assemble is13 pre body = Err ChecksumError \/
  exists n, assemble is13 pre body = Ok n.
Proof.
  unfold assemble. destruct (_ || _); [auto|]. cbv zeta.
  destruct (isValid _); eauto.
Qed.

(** X7. [Parse] fails with [FormatError] exactly when the text left
    after the urn prefix is longer than 17 bytes: the length is checked
    before anything else, and nothing else gives that error. *)
Theorem FormatError_iff s t :
  trimURN s = Ok t ->
  (Parse s = Err FormatError <-> (17 < len t)%nat).
Proof.
  intros Ht. rewrite (Parse_text s t Ht).
  destruct (Nat.ltb_spec 17 (len t)); [split; auto|].
  split; [|lia]. cbv zeta. intros Hf. exfalso.
  destruct (length (digitValues t) =? 13)%nat.
  - destruct (isAllowedPrefix _); [|discriminate].
    destruct (assemble_kind true (take 3 (digitValues t)) (drop 3 (digitValues t)))
      as [E | [E | [n E]]]; rewrite E in Hf; discriminate.
  - destruct (length (digitValues t) =? 10)%nat; [|discriminate].
    destruct (assemble_kind false [0; 0; 0] (digitValues t))
      as [E | [E | [n E]]]; rewrite E in Hf; discriminate.
Qed.

Lemma FormatError_iff_witness :
  trimURN "urn:isbn:97 8-0-8 0-4-4-2 9-5-7-3" = Ok "97 8-0-8 0-4-4-2 9-5-7-3"%string /\
  (Parse "urn:isbn:97 8-0-8 0-4-4-2 9-5-7-3" = Err FormatError <->
   (17 < len "97 8-0-8 0-4-4-2 9-5-7-3")%nat).
Proof.
  split; [reflexivity | apply FormatError_iff; reflexivity].
Defined.

(** X8. [Parse] fails with a [PrefixError] exactly when the text has at
    most 17 bytes and 13 surviving digit values of which the first three
    are not an allow-listed prefix; the error then quotes the first
    three bytes of the text, digit or not. *)
Theorem PrefixError_iff s t raw :
  trimURN s = Ok t ->
  (Parse s = Err (PrefixError raw) <->
   (len t <= 17)%nat /\ length (survivors t) = 13%nat /\
   isAllowedPrefix (take 3 (survivors t)) = false /\
   raw = substring 0 3 t).
Proof.
  intros Ht. rewrite (Parse_text s t Ht), survivors_digitValues.
  destruct (Nat.ltb_spec 17 (len t)); [split; [discriminate | lia]|].
  cbv zeta.
  destruct (Nat.eqb_spec (length (digitValues t)) 13) as [H13 | H13].
  - destruct (isAllowedPrefix (take 3 (digitValues t))) eqn:Hp.
    + split; [|intros (_ & _ & ? & _); discriminate]. intros Hf. exfalso.
      destruct (assemble_kind true (take 3 (digitValues t)) (drop 3 (digitValues t)))
        as [E | [E | [n E]]]; rewrite E in Hf; discriminate.
    + split; [intros Hf; injection Hf as <-; auto|].
      intros (_ & _ & _ & ->). reflexivity.
  - split; [|intros (_ & ? & _); contradiction]. intros Hf. exfalso.
    destruct (length (digitValues t) =? 10)%nat; [|discriminate].
    destruct (assemble_kind false [0; 0; 0] (digitValues t))
      as [E | [E | [n E]]]; rewrite E in Hf; discriminate.
Qed.

Lemma PrefixError_iff_witness :
  trimURN "1-234567890123" = Ok "1-234567890123"%string /\
  (Parse "1-234567890123" = Err (PrefixError "1-2") <->
   (len "1-234567890123" <= 17)%nat /\
   length (survivors "1-234567890123") = 13%nat /\
   isAllowedPrefix (take 3 (survivors "1-234567890123")) = false /\
   "1-2"%string = substring 0 3 "1-234567890123").
Proof.
  split; [reflexivity | apply PrefixError_iff; reflexivity].
Defined.

Example prefix_error_quotes_raw_bytes :
  Parse "1-234567890123" = Err (PrefixError "1-2").
Proof. vm_compute. reflexivity. Qed.

End Taxonomy.

Section MisplacedX.

Lemma existsb_X_inv (l : list Z) :
  existsb (Z.eqb 10) l = true -> exists j, l !! j = Some 10.
Proof.
  induction l as [|d l IH]; cbn [existsb]; [discriminate|].
  destruct (Z.eqb_spec 10 d) as [<- | _]; cbn [orb].
  - intros _. exists 0%nat. reflexivity.
  - intros H. destruct (IH H) as [j Hj]. exists (S j). exact Hj.
Qed.

Lemma assemble_X_inv is13 pre body :
  length body = 10%nat ->
  assemble is13 pre body = Err InvalidCharacterPositionError ->
  exists j, body !! j = Some 10 /\ (is13 = true \/ j <> 9%nat).
Proof.
  intros Hlen. unfold assemble.
  destruct (existsb (Z.eqb 10) (take 9 body)) eqn:Hx; cbn [orb].
  - intros _. destruct (existsb_X_inv _ Hx) as [j Hj]. exists j.
    pose proof (lookup_lt_Some _ _ _ Hj) as Hlt. rewrite length_take in Hlt.
    rewrite lookup_take_lt in Hj by lia. split; [exact Hj | right; lia].
  - destruct (Z.eqb_spec (nth 9 body 0) 10) as [E | E], is13; cbn [andb];
      cbv zeta; try (destruct (isValid _); discriminate).
    intros _. exists 9%nat. split; [|left; reflexivity].
    destruct (nth_lookup_or_length body 9 0) as [Hn | Hn]; [|lia].
    rewrite Hn, E. reflexivity.
Qed.

(** X9. [Parse] fails with [InvalidCharacterPositionError] only for a
    misplaced X: the text has at most 17 bytes, 10 surviving digit
    values or 13 with an allow-listed prefix, and one of them is a 10
    that is not the last of ten. *)
Theorem InvalidCharacterPositionError_only_if s t :
  trimURN s = Ok t ->
  Parse s = Err InvalidCharacterPositionError ->
  (len t <= 17)%nat /\
  (length (survivors t) = 10%nat \/
   (length (survivors t) = 13%nat /\
    isAllowedPrefix (take 3 (survivors t)) = true)) /\
  exists i, survivors t !! i = Some 10 /\
            ~ (length (survivors t) = 10%nat /\ i = 9%nat).
Proof.
  intros Ht. rewrite (Parse_text s t Ht), survivors_digitValues.
  destruct (Nat.ltb_spec 17 (len t)); [discriminate|]. cbv zeta.
  destruct (Nat.eqb_spec (length (digitValues t)) 13) as [H13 | H13].
  - destruct (isAllowedPrefix (take 3 (digitValues t))) eqn:Hp; [|discriminate].
    intros Ha. apply assemble_X_inv in Ha as (j & Hj & _);
      [|rewrite length_drop; lia].
    split; [lia|]. split; [right; auto|]. exists (3 + j)%nat.
    rewrite lookup_drop in Hj. split; [exact Hj | lia].
  - destruct (Nat.eqb_spec (length (digitValues t)) 10) as [H10 | H10];
      [|discriminate].
    intros Ha. apply assemble_X_inv in Ha as (j & Hj & [? | Hne]);
      [discriminate | | exact H10].
    split; [lia|]. split; [left; exact H10|]. exists j.
    split; [exact Hj | lia].
Qed.

Lemma InvalidCharacterPositionError_only_if_witness :
  (len "08044295XX" <= 17)%nat /\
  (length (survivors "08044295XX") = 10%nat \/
   (length (survivors "08044295XX") = 13%nat /\
    isAllowedPrefix (take 3 (survivors "08044295XX")) = true)) /\
  exists i, survivors "08044295XX" !! i = Some 10 /\
            ~ (length (survivors "08044295XX") = 10%nat /\ i = 9%nat).
Proof.
  apply (InvalidCharacterPositionError_only_if "08044295XX");
    [reflexivity | vm_compute; reflexivity].
Defined.

End MisplacedX.

(** ** Digit characters *)

Section DigitCharacters.

(** X10. Printing a digit value and reading the character back gives the
    value; reading a digit character and printing its value gives the
    character, with a lower-case x printed as X; and the printer panics
    exactly on the values outside [0,10]. *)
Theorem digit_character_round_trip :
  (forall d, 0 <= d <= 10 ->
     exists c, isbnDigitToByte d = Some c /\ runeToISBNDigit c = d) /\
  (forall r, 0 <= runeToISBNDigit r ->
     isbnDigitToByte (runeToISBNDigit r) = Some (if r =? 120 then 88 else r)) /\
  (forall d, isbnDigitToByte d = None <-> d < 0 \/ 10 < d).
Proof.
  split; [|split].
  - intros d Hd. exists (digit_char d).
    split; [apply isbnDigitToByte_digit_char, Hd|].
    pose proof (digitValue_digit_char d Hd) as H. unfold digitValue in H.
    destruct (runeToISBNDigit (digit_char d) <? 0); [discriminate|].
    congruence.
  - intros r Hr. unfold runeToISBNDigit in *.
    destruct (Z.leb_spec 48 r), (Z.leb_spec r 57); cbn [andb] in *.
    1: { rewrite isbnDigitToByte_digit_char by lia. unfold digit_char.
         destruct (Z.eqb_spec (r - 48) 10), (Z.eqb_spec r 120); try lia.
         f_equal. lia. }
    all: destruct (Z.eqb_spec r 120), (Z.eqb_spec r 88); cbn [orb] in *;
         try lia; subst; reflexivity.
  - intros d. unfold isbnDigitToByte.
    destruct (Z.leb_spec 0 d), (Z.leb_spec d 9); cbn [andb];
      try destruct (Z.eqb_spec d 10); split; intros; try discriminate;
      try lia; reflexivity.
Qed.

Lemma digit_character_round_trip_witness :
  (exists c, isbnDigitToByte 10 = Some c /\ runeToISBNDigit c = 10) /\
  isbnDigitToByte (runeToISBNDigit 120) = Some 88 /\
  isbnDigitToByte 11 = None.
Proof.
  split; [|split].
  - apply (proj1 digit_character_round_trip). lia.
  - apply (proj1 (proj2 digit_character_round_trip) 120). vm_compute. discriminate.
  - apply (proj2 (proj2 digit_character_round_trip)). lia.
Defined.

End DigitCharacters.

(** ** Equivalence *)

Section Equivalence.

(** The loop of [EquivalientTo] compares [l] with the elements of
    [other] from index [i] on. *)
Lemma digits_match_spec l : forall i other,
  (i + length l <= length other)%nat ->
  (digits_match i l other = true <-> l = take (length l) (drop i other)).
Proof.
  induction l as [|d l IH]; intros i other Hlen; cbn [digits_match length].
  - rewrite take_0. split; reflexivity.
  - cbn [length] in Hlen.
    destruct (lookup_lt_is_Some_2 other i ltac:(lia)) as [x Hx].
    rewrite (nth_lookup_Some _ _ 0 _ Hx).
    rewrite (drop_S _ _ _ Hx). cbn [take].
    destruct (Z.eqb_spec d x) as [<- | Hne]; cbn [negb].
    + rewrite (IH (S i) other) by lia. split; congruence.
    + split; [discriminate | congruence].
Qed.

Lemma EquivalientTo_same_digits a b :
  length (digits a) = 9%nat -> length (digits b) = 9%nat ->
  (EquivalientTo (Some a) (Some b) = true <-> digits a = digits b).
Proof.
  intros Ha Hb. cbn [EquivalientTo].
  rewrite digits_match_spec by lia.
  rewrite drop_0, Ha, <- Hb, firstn_all. reflexivity.
Qed.

(** X11. [EquivalientTo] holds exactly when both values are there and
    their nine digits are the same; the form, the prefix and the
    checksum play no part. *)
Theorem EquivalientTo_iff :
  (forall a b, length (digits a) = 9%nat -> length (digits b) = 9%nat ->
     (EquivalientTo (Some a) (Some b) = true <-> digits a = digits b)) /\
  (forall o, EquivalientTo None o = false /\ EquivalientTo o None = false).
Proof.
  split.
  - apply EquivalientTo_same_digits.
  - intros [o|]; split; reflexivity.
Qed.

Lemma EquivalientTo_iff_witness :
  (EquivalientTo (Some (mkISBN false [0; 0; 0] [0; 8; 0; 4; 4; 2; 9; 5; 7] 10))
                 (Some (mkISBN true [9; 7; 8] [0; 8; 0; 4; 4; 2; 9; 5; 7] 3)) = true
   <-> [0; 8; 0; 4; 4; 2; 9; 5; 7] = [0; 8; 0; 4; 4; 2; 9; 5; 7]) /\
  EquivalientTo None (Some (mkISBN false [0; 0; 0] [0; 8; 0; 4; 4; 2; 9; 5; 7] 10))
  = false.
Proof.
  split.
  - apply (proj1 EquivalientTo_iff
             (mkISBN false [0; 0; 0] [0; 8; 0; 4; 4; 2; 9; 5; 7] 10)
             (mkISBN true [9; 7; 8] [0; 8; 0; 4; 4; 2; 9; 5; 7] 3));
      reflexivity.
  - apply (proj2 EquivalientTo_iff).
Defined.

Lemma To10_digits n : digits (To10 n) = digits n.
Proof. unfold To10. destruct (is13 n); reflexivity. Qed.

Lemma To13_digits n : digits (To13 n) = digits n.
Proof. unfold To13. destruct (is13 n); reflexivity. Qed.

Lemma EquivalientTo_digits a b :
  WellFormed a -> WellFormed b ->
  (EquivalientTo (Some a) (Some b) = true <-> digits a = digits b).
Proof.
  intros Ha Hb. apply EquivalientTo_same_digits;
    [apply (wf_digits_length a Ha) | apply (wf_digits_length b Hb)].
Qed.

(** X12. On the values the package produces, [EquivalientTo] is
    symmetric, and every value is equivalent to itself, to its ISBN-10
    version and to its ISBN-13 version. *)
Theorem EquivalientTo_conversions a b :
  produced a -> produced b ->
  EquivalientTo (Some a) (Some b) = EquivalientTo (Some b) (Some a) /\
  EquivalientTo (Some a) (Some a) = true /\
  EquivalientTo (Some a) (Some (To10 a)) = true /\
  EquivalientTo (Some a) (Some (To13 a)) = true.
Proof.
  intros Pa Pb.
  pose proof (produced_WellFormed a Pa) as Ha.
  pose proof (produced_WellFormed b Pb) as Hb.
  pose proof (To10_WellFormed a Ha) as H10.
  pose proof (To13_WellFormed a Ha) as H13.
  split; [|split; [|split]].
  - pose proof (EquivalientTo_digits a b Ha Hb) as Hab.
    pose proof (EquivalientTo_digits b a Hb Ha) as Hba.
    destruct (EquivalientTo (Some a) (Some b)), (EquivalientTo (Some b) (Some a));
      try reflexivity.
    + destruct Hba as [_ Hba]. symmetry. apply Hba. symmetry. apply Hab. reflexivity.
    + destruct Hab as [_ Hab]. apply Hab. symmetry. apply Hba. reflexivity.
  - apply EquivalientTo_digits; auto.
  - apply EquivalientTo_digits; auto. symmetry. apply To10_digits.
  - apply EquivalientTo_digits; auto. symmetry. apply To13_digits.
Qed.

Lemma EquivalientTo_conversions_witness :
  let a := mkISBN false [0; 0; 0] [0; 8; 0; 4; 4; 2; 9; 5; 7] 10 in
  let b := mkISBN true [9; 7; 8] [0; 8; 0; 4; 4; 2; 9; 5; 7] 3 in
  produced a /\ produced b /\
  (EquivalientTo (Some a) (Some b) = EquivalientTo (Some b) (Some a) /\
   EquivalientTo (Some a) (Some a) = true /\
   EquivalientTo (Some a) (Some (To10 a)) = true /\
   EquivalientTo (Some a) (Some (To13 a)) = true).
Proof.
  assert (produced (mkISBN false [0; 0; 0] [0; 8; 0; 4; 4; 2; 9; 5; 7] 10)) as Ha
    by (apply (produced_Parse "080442957X"); vm_compute; reflexivity).
  assert (produced (mkISBN true [9; 7; 8] [0; 8; 0; 4; 4; 2; 9; 5; 7] 3)) as Hb
    by (apply (produced_Parse "9780804429573"); vm_compute; reflexivity).
  split; [exact Ha|]. split; [exact Hb|].
  exact (EquivalientTo_conversions _ _ Ha Hb).
Defined.

(** The ISBN-10 text of a well-formed value: its digits and their
    ISBN-10 checksum. *)
Lemma String_To10 n :
  WellFormed n ->
  String_ (To10 n)
  = Some (string_of_bytes (map digit_char (digits n ++ [check10 (digits n)]))).
Proof.
  intros H. rewrite (String_WellFormed _ (To10_WellFormed n H)).
  rewrite To10_is10, To10_digits. do 3 f_equal.
  pose proof (wf_valid _ (To10_WellFormed n H)) as Hv.
  rewrite To10_is10, To10_digits in Hv. rewrite Hv. reflexivity.
Qed.

Lemma isbn10_values n :
  WellFormed n ->
  Forall (fun d => 0 <= d <= 10) (digits n ++ [check10 (digits n)]).
Proof.
  intros [Hl Hd _ _ _ _ _]. apply Forall_app. split.
  - eapply Forall_impl; [exact Hd|]. simpl. intros; lia.
  - repeat constructor; apply check10_range; assumption.
Qed.

(** X13. Two produced values are equivalent exactly when their ISBN-10
    versions print the same text. *)
Theorem equivalent_iff_same_isbn10 a b :
  produced a -> produced b ->
  (EquivalientTo (Some a) (Some b) = true <->
   String_ (To10 a) = String_ (To10 b)).
Proof.
  intros Pa Pb.
  pose proof (produced_WellFormed a Pa) as Ha.
  pose proof (produced_WellFormed b Pb) as Hb.
  rewrite (EquivalientTo_digits a b Ha Hb), !String_To10 by assumption.
  split; [intros ->; reflexivity|]. intros H. injection H as H.
  apply (f_equal digitValues) in H.
  rewrite !digitValues_text in H by (apply isbn10_values; assumption).
  apply app_inj_tail in H as [H _]. exact H.
Qed.

Lemma equivalent_iff_same_isbn10_witness :
  let a := mkISBN false [0; 0; 0] [0; 8; 0; 4; 4; 2; 9; 5; 7] 10 in
  let b := mkISBN true [9; 7; 8] [0; 8; 0; 4; 4; 2; 9; 5; 7] 3 in
  produced a /\ produced b /\
  (EquivalientTo (Some a) (Some b) = true <->
   String_ (To10 a) = String_ (To10 b)).
Proof.
  assert (produced (mkISBN false [0; 0; 0] [0; 8; 0; 4; 4; 2; 9; 5; 7] 10)) as Ha
    by (apply (produced_Parse "080442957X"); vm_compute; reflexivity).
  assert (produced (mkISBN true [9; 7; 8] [0; 8; 0; 4; 4; 2; 9; 5; 7] 3)) as Hb
    by (apply (produced_Parse "9780804429573"); vm_compute; reflexivity).
  split; [exact Ha|]. split; [exact Hb|].
  exact (equivalent_iff_same_isbn10 _ _ Ha Hb).
Defined.

(** X14. The ISBN-10 text of a produced value is not changed by a trip
    through its ISBN-13 version, nor its ISBN-13 text by a trip through
    its ISBN-10 version. *)
Theorem String_round_trips n :
  produced n ->
  String_ (To10 (To13 n)) = String_ (To10 n) /\
  String_ (To13 (To10 n)) = String_ (To13 n).
Proof.
  intros P. pose proof (produced_WellFormed n P) as H. split.
  - rewrite !String_To10, To13_digits by (try apply To13_WellFormed; exact H).
    reflexivity.
  - rewrite To13_To10 by exact H. reflexivity.
Qed.

Lemma String_round_trips_witness :
  let n := mkISBN false [0; 0; 0] [0; 8; 3; 6; 2; 1; 8; 2; 5] 6 in
  produced n /\
  (String_ (To10 (To13 n)) = String_ (To10 n) /\
   String_ (To13 (To10 n)) = String_ (To13 n)).
Proof.
  assert (produced (mkISBN false [0; 0; 0] [0; 8; 3; 6; 2; 1; 8; 2; 5] 6)) as H
    by (apply (produced_Parse "0836218256"); vm_compute; reflexivity).
  split; [exact H | exact (String_round_trips _ H)].
Defined.

(** X15. The prefix 979 of an ISBN-13 lives in the value only: its
    ISBN-10 version converts back to it, but the printed ISBN-10 text
    parses to a value whose ISBN-13 version has the prefix 978. *)
Theorem prefix_979_not_printed n :
  produced n -> is13 n = true -> prefix n = [9; 7; 9] ->
  To13 (To10 n) = n /\
  exists s m, String_ (To10 n) = Some s /\ Parse s = Ok m /\
              prefix (To13 m) = [9; 7; 8] /\ To13 m <> n.
Proof.
  intros P E Hp. pose proof (produced_WellFormed n P) as H. split.
  - rewrite To13_To10 by exact H. unfold To13. rewrite E. reflexivity.
  - pose proof (To10_WellFormed n H) as H10.
    destruct (String_total (To10 n) H10) as [s Hs].
    pose proof (Parse_rendering (To10 n) s H10 Hs) as Hparse.
    exists s. eexists. split; [exact Hs|]. split; [exact Hparse|].
    rewrite To10_is10. cbv iota.
    assert (prefix (To13 (mkISBN false [0; 0; 0] (digits (To10 n)) (checksum (To10 n))))
            = [9; 7; 8]) as Hq by reflexivity.
    split; [exact Hq|]. intros Heq. rewrite Heq, Hp in Hq. discriminate.
Qed.

Lemma prefix_979_not_printed_witness :
  let n := mkISBN true [9; 7; 9] [5; 0; 0; 0; 0; 0; 0; 2; 3] 5 in
  To13 (To10 n) = n /\
  exists s m, String_ (To10 n) = Some s /\ Parse s = Ok m /\
              prefix (To13 m) = [9; 7; 8] /\ To13 m <> n.
Proof.
  apply prefix_979_not_printed; [|reflexivity|reflexivity].
  apply (produced_Parse "979-5000000235"). vm_compute. reflexivity.
Defined.

End Equivalence.

(** ** What the checksums detect *)

Section ErrorDetection.

Lemma weighted_sum_cons w x l :
  weighted_sum w (x :: l) = x * w 0%nat + weighted_sum (fun k => w (S k)) l.
Proof. reflexivity. Qed.

Lemma weighted_sum_app w l1 : forall l2,
  weighted_sum w (l1 ++ l2)
  = weighted_sum w l1 + weighted_sum (fun k => w (length l1 + k)%nat) l2.
Proof.
  revert w. induction l1 as [|x l1 IH]; intros w l2.
  - cbn [app length Nat.add]. unfold weighted_sum at 2. cbn [imap foldr].
    rewrite Z.add_0_l. reflexivity.
  - cbn [app]. rewrite !weighted_sum_cons, IH. cbn [length Nat.add]. lia.
Qed.

Lemma weighted_sum_tail w l c :
  weighted_sum w (l ++ [c]) = weighted_sum w l + c * w (length l).
Proof.
  rewrite weighted_sum_app. unfold weighted_sum at 2. cbn [imap foldr].
  rewrite Nat.add_0_r. lia.
Qed.

(** Replacing the value at one index changes the weighted sum by the
    difference times the weight of that index. *)
Lemma weighted_sum_insert l : forall w i d x,
  l !! i = Some d ->
  weighted_sum w (<[i:=x]> l) = weighted_sum w l + (x - d) * w i.
Proof.
  induction l as [|y l IH]; intros w [|i] d x H; try discriminate.
  - injection H as ->. cbn [insert list_insert]. rewrite !weighted_sum_cons. lia.
  - cbn [lookup list_lookup] in H. cbn [insert list_insert].
    change (list_insert i x l) with (<[i:=x]> l).
    rewrite !weighted_sum_cons, (IH _ i d x H). lia.
Qed.

Lemma complement_11 S c :
  0 <= c <= 10 ->
  ((if decide (S mod 11 = 0) then 0 else 11 - S mod 11) = c
   <-> (S + c) mod 11 = 0).
Proof.
  intros Hc. destruct (decide (S mod 11 = 0)); Z.div_mod_to_equations; lia.
Qed.

Lemma complement_10 S c :
  0 <= c <= 9 ->
  ((if decide (S mod 10 = 0) then 0 else 10 - S mod 10) = c
   <-> (S + c) mod 10 = 0).
Proof.
  intros Hc. destruct (decide (S mod 10 = 0)); Z.div_mod_to_equations; lia.
Qed.

(** A valid ISBN-10: the ten values weighted 10, 9, ..., 1 add up to a
    multiple of 11. *)
Lemma isValid_10_total pre ds c :
  length ds = 9%nat -> Forall (fun d => 0 <= d) ds -> 0 <= c <= 10 ->
  (isValid (mkISBN false pre ds c) = true
   <-> weighted_sum weight10 (ds ++ [c]) mod 11 = 0).
Proof.
  intros Hl Hd Hc. unfold isValid. cbn [is13 digits checksum].
  rewrite Z.eqb_eq, check10_spec_check10 by (assumption || lia).
  unfold spec_check10. cbv zeta. rewrite complement_11 by exact Hc.
  rewrite weighted_sum_tail, Hl. change (weight10 9) with 1.
  rewrite Z.mul_1_r. reflexivity.
Qed.

(** A valid ISBN-13: the thirteen values weighted 1, 3, 1, 3, ..., 1 add
    up to a multiple of 10. *)
Lemma isValid_13_total p ds c :
  length p = 3%nat -> Forall (fun d => 0 <= d) p ->
  length ds = 9%nat -> Forall (fun d => 0 <= d) ds -> 0 <= c <= 9 ->
  (isValid (mkISBN true p ds c) = true
   <-> weighted_sum (fun k => weight13 (S k)) (p ++ ds ++ [c]) mod 10 = 0).
Proof.
  intros Hpl Hp Hl Hd Hc. unfold isValid. cbn [is13 prefix digits checksum].
  rewrite Z.eqb_eq, check13_spec_check13 by assumption.
  unfold spec_check13. cbv zeta. rewrite complement_10 by exact Hc.
  destruct p as [|p0 [|p1 [|p2 [|? ?]]]]; try discriminate Hpl.
  rewrite (weighted_sum_app _ [p0; p1; p2]), weighted_sum_tail, Hl.
  change (fun k => weight13 (S (length [p0; p1; p2] + k))) with weight13.
  unfold weighted_sum at 2. cbn [imap foldr nth length Nat.add compose].
  change (weight13 1) with 1. change (weight13 2) with 3.
  change (weight13 3) with 1. change (weight13 13) with 1.
  match goal with |- ?a mod 10 = 0 <-> ?b mod 10 = 0 =>
    replace b with a by lia end.
  reflexivity.
Qed.

Lemma reads_as_length t n :
  reads_as t n ->
  length (survivors t) = (if is13 n then 13 else 10)%nat /\
  length (prefix n) = 3%nat.
Proof.
  intros (_ & Hs & Hl & Hp & _ & _). rewrite Hs.
  destruct (is13 n).
  - apply isAllowedPrefix_cases in Hp. rewrite !length_app, Hl.
    destruct Hp as [-> | ->]; split; reflexivity.
  - rewrite !length_app, Hl, Hp. split; reflexivity.
Qed.

Lemma survivors_range t : Forall (fun v => 0 <= v <= 10) (survivors t).
Proof. rewrite survivors_digitValues. apply digitValues_range. Qed.

(** What validity says about the surviving digit values of an accepted
    text. *)
Lemma accepted_total t n :
  reads_as t n -> isValid n = true ->
  if is13 n
  then weighted_sum (fun k => weight13 (S k)) (survivors t) mod 10 = 0 /\
       Forall (fun v => 0 <= v <= 9) (survivors t)
  else weighted_sum weight10 (survivors t) mod 11 = 0.
Proof.
  intros Hr Hv. pose proof (survivors_range t) as Hrange.
  destruct (reads_as_length t n Hr) as [_ Hpl].
  destruct Hr as (_ & Hs & Hl & Hp & Hd & Hx). rewrite Hs in *.
  apply Forall_app in Hrange as [Rp Rdc]. apply Forall_app in Rdc as [Rd Rc].
  apply Forall_cons in Rc as [Rc _].
  assert (Forall (fun d => 0 <= d) (digits n)) as Rd'
    by (eapply Forall_impl; [exact Rd|]; simpl; intros; lia).
  destruct n as [i p ds c]. cbn [is13 prefix digits checksum] in *.
  destruct i.
  - assert (c <> 10) as Hc10 by (intros E; specialize (Hx E); discriminate).
    split.
    + apply isValid_13_total; try assumption; [|lia].
      eapply Forall_impl; [exact Rp|]. simpl. intros; lia.
    + apply Forall_app. split.
      * apply isAllowedPrefix_cases in Hp as [-> | ->]; repeat constructor; lia.
      * apply Forall_app. split; [|repeat constructor; lia].
        clear - Rd Hd. induction Rd as [|d l Hd0 _ IH]; [constructor|].
        apply Forall_cons in Hd as [Hne Hd]. constructor; [lia | auto].
  - cbn [app]. apply (isValid_10_total p); assumption.
Qed.

Lemma same_form t n t' n' :
  reads_as t n -> reads_as t' n' ->
  length (survivors t') = length (survivors t) -> is13 n' = is13 n.
Proof.
  intros Hr Hr' Hlen.
  destruct (reads_as_length t n Hr) as [H _].
  destruct (reads_as_length t' n' Hr') as [H' _].
  destruct (is13 n), (is13 n'); congruence.
Qed.

(** X16. A single wrong digit is always caught: if [Parse] accepts a
    text, it accepts no text whose surviving digit values differ from it
    in exactly one place, be it in the prefix, a digit or the
    checksum. *)
Theorem single_error_rejected s t s' t' n j x :
  trimURN s = Ok t -> Parse s = Ok n -> trimURN s' = Ok t' ->
  (j < length (survivors t))%nat -> survivors t !! j <> Some x ->
  survivors t' = <[j:=x]> (survivors t) ->
  forall n', Parse s' <> Ok n'.
Proof.
  intros Ht Hp Ht' Hj Hne Hs' n' Hp'.
  apply (Parse_Ok_reads s t n Ht) in Hp as [Hr Hv].
  apply (Parse_Ok_reads s' t' n' Ht') in Hp' as [Hr' Hv'].
  assert (is13 n' = is13 n) as Hform
    by (apply (same_form t n t' n' Hr Hr'); rewrite Hs', length_insert; reflexivity).
  pose proof (accepted_total t n Hr Hv) as Hsum.
  pose proof (accepted_total t' n' Hr' Hv') as Hsum'.
  rewrite Hform in Hsum'.
  destruct (lookup_lt_is_Some_2 _ _ Hj) as [d Hd].
  assert (d <> x) as Hdx by congruence.
  assert (survivors t' !! j = Some x) as Hx
    by (rewrite Hs'; apply list_lookup_insert_eq; exact Hj).
  destruct (reads_as_length t n Hr) as [Hlen _].
  destruct (is13 n).
  - destruct Hsum as [Hsum R], Hsum' as [Hsum' R'].
    pose proof (proj1 (Forall_lookup _ _) R _ _ Hd) as Rd.
    pose proof (proj1 (Forall_lookup _ _) R' _ _ Hx) as Rx.
    rewrite Hs', (weighted_sum_insert _ _ _ d x Hd) in Hsum'.
    cbv beta in *. unfold weight13 at 2 in Hsum'.
    destruct (Nat.even (S j)); revert Hsum Hsum'; Z.div_mod_to_equations; lia.
  - pose proof (proj1 (Forall_lookup _ _) (survivors_range t) _ _ Hd) as Rd.
    pose proof (proj1 (Forall_lookup _ _) (survivors_range t') _ _ Hx) as Rx.
    rewrite Hs', (weighted_sum_insert _ _ _ d x Hd) in Hsum'.
    cbv beta in *. rewrite Hlen in Hj. unfold weight10 at 2 in Hsum'.
    do 10 (destruct j as [|j];
           [revert Hsum Hsum'; cbn [Z.of_nat Pos.of_succ_nat Pos.succ];
            Z.div_mod_to_equations; lia|]).
    lia.
Qed.

Lemma single_error_rejected_witness :
  Parse "080442957X"
  = Ok (mkISBN false [0; 0; 0] [0; 8; 0; 4; 4; 2; 9; 5; 7] 10) /\
  forall n', Parse "0804-32957X" <> Ok n'.
Proof.
  split; [vm_compute; reflexivity|].
  apply (single_error_rejected "080442957X" "080442957X"
           "0804-32957X" "0804-32957X"
           (mkISBN false [0; 0; 0] [0; 8; 0; 4; 4; 2; 9; 5; 7] 10) 4%nat 3).
  - reflexivity.
  - vm_compute. reflexivity.
  - reflexivity.
  - vm_compute. lia.
  - vm_compute. discriminate.
  - vm_compute. reflexivity.
Defined.

(** X17. A transposition is always caught in an ISBN-10: if [Parse]
    accepts a text as an ISBN-10, it accepts no text whose surviving
    digit values are those of the first with two different values
    exchanged. *)
Theorem transposition_rejected_10 s t s' t' n i j a b :
  trimURN s = Ok t -> Parse s = Ok n -> is13 n = false ->
  trimURN s' = Ok t' ->
  survivors t !! i = Some a -> survivors t !! j = Some b -> a <> b ->
  survivors t' = <[i:=b]> (<[j:=a]> (survivors t)) ->
  forall n', Parse s' <> Ok n'.
Proof.
  intros Ht Hp E Ht' Hi Hj Hab Hs' n' Hp'.
  apply (Parse_Ok_reads s t n Ht) in Hp as [Hr Hv].
  apply (Parse_Ok_reads s' t' n' Ht') in Hp' as [Hr' Hv'].
  assert (is13 n' = is13 n) as Hform
    by (apply (same_form t n t' n' Hr Hr'); rewrite Hs', !length_insert;
        reflexivity).
  pose proof (accepted_total t n Hr Hv) as Hsum.
  pose proof (accepted_total t' n' Hr' Hv') as Hsum'.
  rewrite Hform in Hsum'. rewrite E in Hsum, Hsum'.
  assert (i <> j) as Hij by (intros ->; congruence).
  assert (<[j:=a]> (survivors t) !! i = Some a) as Hi'
    by (rewrite list_lookup_insert_ne by congruence; exact Hi).
  rewrite Hs', (weighted_sum_insert _ _ _ a b Hi'),
    (weighted_sum_insert _ _ _ b a Hj) in Hsum'.
  destruct (reads_as_length t n Hr) as [Hlen _]. rewrite E in Hlen.
  pose proof (lookup_lt_Some _ _ _ Hi) as Li.
  pose proof (lookup_lt_Some _ _ _ Hj) as Lj. rewrite Hlen in Li, Lj.
  pose proof (proj1 (Forall_lookup _ _) (survivors_range t) _ _ Hi) as Ra.
  pose proof (proj1 (Forall_lookup _ _) (survivors_range t) _ _ Hj) as Rb.
  unfold weight10 at 2 3 in Hsum'.
  assert ((a - b) * (Z.of_nat i - Z.of_nat j) mod 11 = 0) as Hmod.
  { replace ((a - b) * (Z.of_nat i - Z.of_nat j))
      with (weighted_sum weight10 (survivors t) + (a - b) * (10 - Z.of_nat j)
            + (b - a) * (10 - Z.of_nat i)
            - weighted_sum weight10 (survivors t)) by ring.
    revert Hsum Hsum'. generalize (weighted_sum weight10 (survivors t)).
    intros S. Z.div_mod_to_equations. lia. }
  cbv beta in Ra, Rb. clear - Hmod Hab Hij Li Lj Ra Rb. revert Hmod.
  do 10 (destruct i as [|i]; [
    do 10 (destruct j as [|j]; [
      try congruence;
      match goal with
      | |- context [Z.of_nat ?x - Z.of_nat ?y] =>
        let c := eval vm_compute in (Z.of_nat x - Z.of_nat y) in
        change (Z.of_nat x - Z.of_nat y) with c
      end;
      Z.div_mod_to_equations; lia |]); lia |]).
  lia.
Qed.

Lemma transposition_rejected_10_witness :
  Parse "080442957X"
  = Ok (mkISBN false [0; 0; 0] [0; 8; 0; 4; 4; 2; 9; 5; 7] 10) /\
  forall n', Parse "0804249 57X" <> Ok n'.
Proof.
  split; [vm_compute; reflexivity|].
  apply (transposition_rejected_10 "080442957X" "080442957X"
           "0804249 57X" "0804249 57X"
           (mkISBN false [0; 0; 0] [0; 8; 0; 4; 4; 2; 9; 5; 7] 10)
           4%nat 5%nat 4 2).
  - reflexivity.
  - vm_compute. reflexivity.
  - reflexivity.
  - reflexivity.
  - vm_compute. reflexivity.
  - vm_compute. reflexivity.
  - lia.
  - vm_compute. reflexivity.
Defined.

(** An ISBN-13 does not have that property: exchanging the neighbours 8
    and 3 of a valid ISBN-13 gives another valid ISBN-13. *)
Example transposition_accepted_13 :
  Parse "9780836220889"
  = Ok (mkISBN true [9; 7; 8] [0; 8; 3; 6; 2; 2; 0; 8; 8] 9) /\
  Parse "9780386220889"
  = Ok (mkISBN true [9; 7; 8] [0; 3; 8; 6; 2; 2; 0; 8; 8] 9).
Proof. vm_compute. split; reflexivity. Qed.

End ErrorDetection.

(** ** Upper and lower case *)

Section LetterCase.

(** Texts of the same length with the same surviving digit values have
    the same outcome, whatever their length. *)
Lemma Parse_same_text s1 t1 s2 t2 :
  trimURN s1 = Ok t1 -> trimURN s2 = Ok t2 ->
  len t1 = len t2 -> digitValues t1 = digitValues t2 ->
  same_outcome (Parse s1) (Parse s2).
Proof.
  intros H1 H2 Hlen Hd.
  destruct (Nat.le_gt_cases (len t1) 17) as [Hle | Hgt].
  - apply (Parse_same_values s1 t1 s2 t2); (assumption || lia).
  - rewrite (Parse_text s1 t1 H1), (Parse_text s2 t2 H2), <- Hlen.
    destruct (Nat.ltb_spec 17 (len t1)); [reflexivity | lia].
Qed.

(** Exchanging a character that does not occur in [p] for another one
    does not make [p] a prefix, nor stop it from being one. *)
Lemma prefix_exchange c1 c2 post p : forall pre,
  Forall (fun a => a <> c1 /\ a <> c2) (list_ascii_of_string p) ->
  String.prefix p (pre ++ String c1 post)
  = String.prefix p (pre ++ String c2 post).
Proof.
  induction p as [|a p IH]; intros pre Hp.
  - destruct pre; reflexivity.
  - cbn [list_ascii_of_string] in Hp. apply Forall_cons in Hp as [[H1 H2] Hp].
    destruct pre as [|b pre]; cbn [append String.prefix].
    + destruct (ascii_dec a c1), (ascii_dec a c2); congruence.
    + destruct (ascii_dec a b); [apply IH, Hp | reflexivity].
Qed.

Lemma digitValues_exchange pre c1 c2 post :
  digitValue (byte_of_ascii c1) = digitValue (byte_of_ascii c2) ->
  digitValues (pre ++ String c1 post) = digitValues (pre ++ String c2 post).
Proof.
  intros H. rewrite !digitValues_app. f_equal.
  unfold digitValues, bytes. cbn [list_ascii_of_string map flat_map].
  rewrite H. reflexivity.
Qed.

Lemma len_exchange pre c1 c2 post :
  len (pre ++ String c1 post) = len (pre ++ String c2 post).
Proof. rewrite !len_app. reflexivity. Qed.

(** Exchanging one byte for another with the same digit value, neither
    occurring in the urn prefix, does not change the outcome. *)
Lemma Parse_exchange pre c1 c2 post :
  Forall (fun a => a <> c1 /\ a <> c2) (list_ascii_of_string urnPrefix) ->
  digitValue (byte_of_ascii c1) = digitValue (byte_of_ascii c2) ->
  same_outcome (Parse (pre ++ String c1 post)) (Parse (pre ++ String c2 post)).
Proof.
  intros Hurn Hval.
  pose proof (prefix_exchange c1 c2 post urnPrefix pre Hurn) as Hp.
  pose proof (digitValues_exchange pre c1 c2 post Hval) as Hd.
  pose proof (len_exchange pre c1 c2 post) as Hl.
  destruct (trimURN_cases (pre ++ String c1 post)) as [[F1 H1] | (t1 & E1 & H1)],
           (trimURN_cases (pre ++ String c2 post)) as [[F2 H2] | (t2 & E2 & H2)].
  - apply (Parse_same_text _ _ _ _ H1 H2 Hl Hd).
  - exfalso. unfold HasPrefix in F1. rewrite Hp, E2, prefix_append in F1.
    discriminate.
  - exfalso. unfold HasPrefix in F2. rewrite <- Hp, E1, prefix_append in F2.
    discriminate.
  - rewrite E1, E2 in Hd, Hl. rewrite !digitValues_urn in Hd.
    rewrite !len_urn in Hl.
    apply (Parse_same_text _ _ _ _ H1 H2); [lia | exact Hd].
Qed.

(** X18. A lower-case x reads as an upper-case X: exchanging one for the
    other anywhere in the input gives the same ISBN, or an error of the
    same kind. *)
Theorem x_case_insensitive pre post :
  same_outcome (Parse (pre ++ "x" ++ post)) (Parse (pre ++ "X" ++ post)).
Proof.
  apply Parse_exchange; [|reflexivity].
  repeat constructor; discriminate.
Qed.

End LetterCase.

(** ** No panic *)

Section NoPanic.

(** X20. [Parse] and [Validate] never panic: whatever the input, no
    index or slice leaves its range; [Parse] returns an ISBN or an
    error, and [Validate] returns [true] or [false]. *)
Theorem Parse_never_panics s :
  ((exists n, Parse s = Ok n) \/ (exists e, Parse s = Err e)) /\
  (Validate s = Ok true \/ Validate s = Ok false).
Proof.
  pose proof (Parse_no_panic s) as H. unfold Validate.
  destruct (Parse s) as [n | e |]; [| |contradiction]; split; eauto.
Qed.

End NoPanic.
